(** * data-gateway: ingestion, query and track export handlers

    A shallow embedding of the two variants of the gateway found in the
    repository:

    - [Mongo]  : [main.go], the document-store variant (collection of
                 [Location] documents, [created_at] set at insertion);
    - [Sqlite] : the relational variant (table [locations], plus the KML
                 track export [handleDownloadKML]).

    The HTTP router, the JSON decoder and the database drivers are
    libraries; what the handlers observe of them is modelled as follows.

    - A request body is the first JSON value the decoder reads from it, or
      nothing when the body is empty or is not JSON ([option json]).
    - A driver call either returns, or fails with a message.  A handler is
      an inductive relation between the store, the request, the response and
      the store afterwards, with one constructor per [return] of the source
      that can be taken; the failure of a driver call is a constructor of its
      own.  The stores are typed, so that [rows.Scan] does not fail.
    - Where an engine or the Go runtime chooses an order (ties of a sort,
      [DISTINCT], iteration over a Go map) every admissible order is a
      possible behaviour.  What the code itself computes (binding, filters,
      grouping, document text) is a function. *)

From Stdlib Require Import ZArith Floats Ascii String DecimalString.
From stdpp Require Import gmap strings list sorting fin_maps.

(** ** Values *)

(** Go's [float64]: IEEE 754 binary64. *)
Definition float64 : Type := PrimFloat.float.

(** The double quote and the line feed, for the document text. *)
Definition dq : string := String "034"%char EmptyString.
Definition nl : string := String "010"%char EmptyString.

(** *** [fmt.Sprintf("%f", x)]

    Six digits after the point, the exact binary value rounded to nearest,
    ties to even ([strconv.FormatFloat(x, 'f', 6, 64)]). *)

Definition dec_of_N (n : N) : string := NilEmpty.string_of_uint (N.to_uint n).

Fixpoint zeros (n : nat) : string :=
  match n with
  | O => EmptyString
  | S n' => String "0"%char (zeros n')
  end.

Definition pad_left (w : nat) (s : string) : string :=
  zeros (w - String.length s) +:+ s.

Definition round_half_even (num den : Z) : Z :=
  let q := (num / den)%Z in
  let r := (num mod den)%Z in
  if (2 * r <? den)%Z then q
  else if (den <? 2 * r)%Z then (q + 1)%Z
  else if Z.even q then q else (q + 1)%Z.

(** [n] is the absolute value scaled by [10^6]. *)
Definition fixed6 (neg : bool) (n : Z) : string :=
  (if neg then "-" else "") +:+ dec_of_N (Z.to_N (n / 1000000)) +:+ "." +:+
  pad_left 6 (dec_of_N (Z.to_N (n mod 1000000))).

Definition format_f (x : float64) : string :=
  match Prim2SF x with
  | S754_nan => "NaN"
  | S754_infinity false => "+Inf"
  | S754_infinity true => "-Inf"
  | S754_zero s => fixed6 s 0
  | S754_finite s m e =>
      if (0 <=? e)%Z then fixed6 s (Z.pos m * 2 ^ e * 1000000)
      else fixed6 s (round_half_even (Z.pos m * 1000000) (2 ^ (- e)))
  end.

(** ** JSON bodies and [ShouldBindJSON] *)

(** A JSON value as [encoding/json] sees it.  A number literal is kept as
    what [strconv.ParseFloat(lit, 64)] returns for it: the float, or [None]
    when the literal is out of the range of a [float64].  A string is the
    decoded Go string. *)
Inductive json : Type :=
| JNull
| JBool (b : bool)
| JNumber (v : option float64)
| JString (s : string)
| JArray (vs : list json)
| JObject (members : list (string * json)).

(** The JSON kind named by an [UnmarshalTypeError]. *)
Inductive json_kind : Type := KBool | KNumber | KString | KArray | KObject.

(** Why [ShouldBindJSON] fails.  [ErrField] and [ErrTopLevel] stand for
    [*json.UnmarshalTypeError] (the value and the Go field it was meant for),
    [ErrTime] for the error of [time.Time.UnmarshalJSON]. *)
Inductive bind_error : Type :=
| ErrSyntax
| ErrTopLevel (k : json_kind)
| ErrField (field : string) (k : json_kind)
| ErrTime (field : string).

(** *** Matching an object key to a struct field

    [encoding/json] takes the field whose name is the key, or else the field
    whose name equals the key under case folding.  Folding maps every rune to
    the least rune of its simple-fold orbit: an ASCII letter to its capital,
    U+017F (long s, bytes C5 BF) to [S], U+212A (Kelvin sign, bytes E2 84 AA)
    to [K]; no other rune folds to an ASCII one, and those are left as they
    are here, which does not change which keys match an ASCII name. *)

Definition upper (c : ascii) : ascii :=
  let n := nat_of_ascii c in
  if decide (97 <= n <= 122)%nat then ascii_of_nat (n - 32) else c.

Fixpoint foldName (s : string) : string :=
  match s with
  | EmptyString => EmptyString
  | String c1 s1 =>
      match s1 with
      | String c2 s2 =>
          if decide (c1 = "197"%char /\ c2 = "191"%char)
          then String "S"%char (foldName s2)
          else
            match s2 with
            | String c3 s3 =>
                if decide (c1 = "226"%char /\ c2 = "132"%char /\ c3 = "170"%char)
                then String "K"%char (foldName s3)
                else String (upper c1) (foldName s1)
            | EmptyString => String (upper c1) (foldName s1)
            end
      | EmptyString => String (upper c1) EmptyString
      end
  end.

(** Exact name first, the folded name otherwise.  The names of one struct
    are pairwise different under folding, so the first field that matches is
    the only one. *)
Definition key_matches (key name : string) : bool :=
  bool_decide (key = name) || bool_decide (foldName key = foldName name).

(** *** Storing a JSON value into a field *)

Definition kind_of (v : json) : option json_kind :=
  match v with
  | JNull => None
  | JBool _ => Some KBool
  | JNumber _ => Some KNumber
  | JString _ => Some KString
  | JArray _ => Some KArray
  | JObject _ => Some KObject
  end.

(** What decoding one value into one field does: [Keep] leaves the field as
    it is (JSON [null]), [Put] sets it, [Mismatch] records an
    [UnmarshalTypeError] and goes on with the next member, [Fail] ends the
    decoding with the error of the field's own [UnmarshalJSON]. *)
Inductive stored (A : Type) : Type :=
| Keep
| Put (a : A)
| Mismatch (k : json_kind)
| Fail.
Arguments Keep {A}.
Arguments Put {A} a.
Arguments Mismatch {A} k.
Arguments Fail {A}.

Definition store_string (v : json) : stored string :=
  match v with
  | JNull => Keep
  | JString s => Put s
  | JBool _ => Mismatch KBool
  | JNumber _ => Mismatch KNumber
  | JArray _ => Mismatch KArray
  | JObject _ => Mismatch KObject
  end.

Definition store_float64 (v : json) : stored float64 :=
  match v with
  | JNull => Keep
  | JNumber (Some x) => Put x
  | JNumber None => Mismatch KNumber
  | JBool _ => Mismatch KBool
  | JString _ => Mismatch KString
  | JArray _ => Mismatch KArray
  | JObject _ => Mismatch KObject
  end.

Inductive result (A : Type) : Type :=
| Ok (a : A)
| Err (e : bind_error).
Arguments Ok {A} a.
Arguments Err {A} e.

(** The outcome of one object member on the struct being filled. *)
Inductive assigned (L : Type) : Type :=
| Assigned (l : L)
| TypeError (e : bind_error)
| Abort (e : bind_error).
Arguments Assigned {L} l.
Arguments TypeError {L} e.
Arguments Abort {L} e.

Definition assign_with {L A : Type} (goname : string) (set : A -> L -> L)
    (s : stored A) (l : L) : assigned L :=
  match s with
  | Keep => Assigned l
  | Put a => Assigned (set a l)
  | Mismatch k => TypeError (ErrField goname k)
  | Fail => Abort (ErrTime goname)
  end.

Section Unmarshal.
Context {L : Type}.
(** [assign key v l]: the member [key : v] applied to [l]; a key that matches
    no field is skipped. *)
Variable assign : string -> json -> L -> assigned L.

(** The members in order.  The first type error is kept while decoding goes
    on; an error of a field's own decoder ends it. *)
Fixpoint object (ms : list (string * json)) (l : L) (saved : option bind_error)
    : result (L * option bind_error) :=
  match ms with
  | [] => Ok (l, saved)
  | (k, v) :: ms' =>
      match assign k v l with
      | Assigned l' => object ms' l' saved
      | TypeError e =>
          object ms' l (match saved with Some _ => saved | None => Some e end)
      | Abort e => Err e
      end
  end.

(** [json.NewDecoder(body).Decode(&l)] on a zero struct. *)
Definition unmarshal (zero : L) (body : option json) : result L :=
  match body with
  | None => Err ErrSyntax
  | Some JNull => Ok zero
  | Some (JObject ms) =>
      match object ms zero None with
      | Ok (l, None) => Ok l
      | Ok (_, Some e) => Err e
      | Err e => Err e
      end
  | Some (JBool _) => Err (ErrTopLevel KBool)
  | Some (JNumber _) => Err (ErrTopLevel KNumber)
  | Some (JString _) => Err (ErrTopLevel KString)
  | Some (JArray _) => Err (ErrTopLevel KArray)
  end.
End Unmarshal.

(** ** Responses *)

(** [err.Error()] of a failed binding or of a failed driver call. *)
Inductive error : Type :=
| BindError (e : bind_error)
| DriverError (msg : string).

(** A Go slice is the list of its elements: the nil slice and the empty
    one are both [[]] (on the wire [encoding/json] writes the first as
    [null], the second as an empty array). *)
Inductive payload (L : Type) : Type :=
| ErrorJSON (e : error)                 (* gin.H{"error": err.Error()} *)
| SuccessJSON                           (* gin.H{"status": "success"} *)
| LocationsJSON (ls : list L)           (* c.JSON(code, locations) *)
| StringsJSON (ss : list string)        (* c.JSON(code, deployments) *)
| Text (headers : list (string * string)) (text : string).  (* c.String *)
Arguments ErrorJSON {L} e.
Arguments SuccessJSON {L}.
Arguments LocationsJSON {L} ls.
Arguments StringsJSON {L} ss.
Arguments Text {L} headers text.

Record Response (L : Type) : Type := response { code : Z; content : payload L }.
Arguments response {L} code content.
Arguments code {L} r.
Arguments content {L} r.

Definition StatusOK : Z := 200.
Definition StatusBadRequest : Z := 400.
Definition StatusNotFound : Z := 404.
Definition StatusInternalServerError : Z := 500.

(** ** Orders chosen by the engine *)

(** Strings are compared byte by byte, the shorter first when one is a
    prefix of the other ([String.le]): SQLite's BINARY collation and
    MongoDB's comparison of strings without a collation. *)
Definition by_key {A : Type} (key : A -> string) : relation A :=
  fun a b => String.le (key a) (key b).

#[global] Instance by_key_dec {A : Type} (key : A -> string) : RelDecision (by_key key).
Proof. intros a b. unfold by_key. apply _. Defined.

(** A query sorted by [key]: some arrangement of the selected records that
    is non-decreasing by [key]; records with equal keys come in any order. *)
Definition sorted_by {A : Type} (key : A -> string) (sel res : list A) : Prop :=
  res ≡ₚ sel /\ Sorted (by_key key) res.

(** The distinct values of a column, in any order. *)
Definition distinct (xs ds : list string) : Prop :=
  NoDup ds /\ forall x, x ∈ ds <-> x ∈ xs.

(** ** Well-formed documents

    A recogniser of the XML 1.0 documents made of what the track export
    writes: an XML declaration, elements with attributes, character data,
    entity references and decimal character references.  An element is
    closed by the tag of its name, one root element holds everything, and
    character data holds no [<] and no [&] other than a reference
    (productions 1, 14, 23, 39 to 44 and 66 to 68 of XML 1.0).  The name of
    an entity reference is not looked up.  Comments, CDATA sections,
    processing instructions, hexadecimal character references and document
    type declarations are outside of it and are refused. *)

Module Xml.

Definition is_space (c : ascii) : bool :=
  let n := nat_of_ascii c in
  bool_decide (n = 32 \/ n = 9 \/ n = 10 \/ n = 13)%nat.

Definition is_digit (c : ascii) : bool :=
  let n := nat_of_ascii c in bool_decide (48 <= n <= 57)%nat.

Definition is_name_start (c : ascii) : bool :=
  let n := nat_of_ascii c in
  bool_decide ((65 <= n <= 90) \/ (97 <= n <= 122) \/ n = 95 \/ n = 58 \/ 128 <= n)%nat.

Definition is_name_char (c : ascii) : bool :=
  is_name_start c || is_digit c ||
  bool_decide (c = "-"%char) || bool_decide (c = "."%char).

(** Legal characters: tab, line feed, carriage return and everything from
    the space on. *)
Definition is_char (c : ascii) : bool :=
  let n := nat_of_ascii c in
  bool_decide (n = 9 \/ n = 10 \/ n = 13 \/ 32 <= n)%nat.

Fixpoint all_chars (p : ascii -> bool) (s : string) : bool :=
  match s with
  | EmptyString => true
  | String c r => p c && all_chars p r
  end.

Definition is_name (s : string) : bool :=
  match s with
  | EmptyString => false
  | String c r => is_name_start c && all_chars is_name_char r
  end.

(** The longest prefix of name characters, and what follows it. *)
Fixpoint take_name (s : string) : string * string :=
  match s with
  | EmptyString => (EmptyString, EmptyString)
  | String c r =>
      if is_name_char c
      then let nr := take_name r in (String c nr.1, nr.2)
      else (EmptyString, s)
  end.

(** [s] without its last character, when that is [c]. *)
Fixpoint strip_last (c : ascii) (s : string) : option string :=
  match s with
  | EmptyString => None
  | String d EmptyString => if bool_decide (c = d) then Some EmptyString else None
  | String d r => String d <$> strip_last c r
  end.

(** [(S Attribute)* S?] *)
Inductive attr_state : Type :=
| AfterValue
| AfterSpace
| InName
| AfterName
| AfterEq
| InValue (q : ascii).

Definition attr_step (st : attr_state) (c : ascii) : option attr_state :=
  match st with
  | AfterValue => if is_space c then Some AfterSpace else None
  | AfterSpace =>
      if is_space c then Some AfterSpace
      else if is_name_start c then Some InName else None
  | InName =>
      if is_name_char c then Some InName
      else if is_space c then Some AfterName
      else if bool_decide (c = "="%char) then Some AfterEq else None
  | AfterName =>
      if is_space c then Some AfterName
      else if bool_decide (c = "="%char) then Some AfterEq else None
  | AfterEq =>
      if is_space c then Some AfterEq
      else if bool_decide (c = "034"%char) || bool_decide (c = "'"%char)
      then Some (InValue c) else None
  | InValue q =>
      if bool_decide (c = q) then Some AfterValue
      else if bool_decide (c = "<"%char) || bool_decide (c = "&"%char) ||
              negb (is_char c)
      then None else Some (InValue q)
  end.

Fixpoint attrs_from (st : attr_state) (s : string) : bool :=
  match s with
  | EmptyString =>
      match st with AfterValue | AfterSpace => true | _ => false end
  | String c r =>
      match attr_step st c with
      | Some st' => attrs_from st' r
      | None => false
      end
  end.

Definition attributes (s : string) : bool := attrs_from AfterValue s.

(** [&name;], [&#digits;] *)
Definition is_reference (s : string) : bool :=
  match s with
  | String "#" r =>
      match r with
      | EmptyString => false
      | String _ _ => all_chars is_digit r
      end
  | _ => is_name s
  end.

Inductive mode : Type :=
| Content
| Reference (acc : string)
| Markup (acc : string) (quote : option ascii).

Record state : Type := mkState {
  open_elements : list string;    (* innermost first *)
  root_closed : bool;             (* the root element has been closed *)
  at_start : bool;                (* nothing has been read *)
  current : mode
}.

Definition initial : state := mkState [] false true Content.

(** What is between a [<] and its [>]. *)
Definition markup (first : bool) (t : string) (st : state) : option state :=
  match t with
  | String "?" r =>
      (* the XML declaration, at the very start only *)
      match strip_last "?" r with
      | Some d =>
          let nr := take_name d in
          if first && bool_decide (nr.1 = "xml") && attributes nr.2
          then Some (mkState (open_elements st) (root_closed st) false Content)
          else None
      | None => None
      end
  | String "!" _ => None
  | String "/" r =>
      let nr := take_name r in
      match open_elements st with
      | top :: below =>
          if is_name nr.1 && bool_decide (nr.1 = top) && all_chars is_space nr.2
          then Some (mkState below (bool_decide (below = [])) false Content)
          else None
      | [] => None
      end
  | _ =>
      if root_closed st then None
      else
        match strip_last "/" t with
        | Some e =>
            let nr := take_name e in
            if is_name nr.1 && attributes nr.2
            then Some (mkState (open_elements st)
                         (bool_decide (open_elements st = [])) false Content)
            else None
        | None =>
            let nr := take_name t in
            if is_name nr.1 && attributes nr.2
            then Some (mkState (nr.1 :: open_elements st) false false Content)
            else None
        end
  end.

Definition snoc (s : string) (c : ascii) : string := s +:+ String c EmptyString.

Definition step (st : state) (c : ascii) : option state :=
  let keep m := Some (mkState (open_elements st) (root_closed st) false m) in
  match current st with
  | Content =>
      if bool_decide (c = "<"%char) then
        Some (mkState (open_elements st) (root_closed st) (at_start st)
                (Markup EmptyString None))
      else
        match open_elements st with
        | [] => if is_space c then keep Content else None
        | _ :: _ =>
            if bool_decide (c = "&"%char) then keep (Reference EmptyString)
            else if is_char c then keep Content else None
        end
  | Reference acc =>
      if bool_decide (c = ";"%char)
      then (if is_reference acc then keep Content else None)
      else if is_name_char c || bool_decide (c = "#"%char)
      then keep (Reference (snoc acc c)) else None
  | Markup acc (Some q) =>
      if bool_decide (c = "<"%char) then None
      else
        Some (mkState (open_elements st) (root_closed st) (at_start st)
                (Markup (snoc acc c) (if bool_decide (c = q) then None else Some q)))
  | Markup acc None =>
      if bool_decide (c = ">"%char) then markup (at_start st) acc st
      else if bool_decide (c = "<"%char) then None
      else
        Some (mkState (open_elements st) (root_closed st) (at_start st)
                (Markup (snoc acc c)
                   (if bool_decide (c = "034"%char) || bool_decide (c = "'"%char)
                    then Some c else None)))
  end.

Fixpoint scan (st : state) (s : string) : option state :=
  match s with
  | EmptyString => Some st
  | String c r =>
      match step st c with
      | Some st' => scan st' r
      | None => None
      end
  end.

Definition well_formed (doc : string) : bool :=
  match scan initial doc with
  | Some st =>
      match current st, open_elements st with
      | Content, [] => root_closed st
      | _, _ => false
      end
  | None => false
  end.

End Xml.

(** [needle] occurs in [hay]. *)
Definition occurs (needle hay : string) : bool :=
  match String.index 0 needle hay with Some _ => true | None => false end.

(** * The relational variant *)

Module Sqlite.

Record Location : Type := mkLocation {
  Deployment : string;
  Platform : string;
  Latitude : float64;
  Longitude : float64;
  Timestamp : string;
  Source : string
}.

(** [var loc Location] *)
Definition zero : Location := mkLocation "" "" 0%float 0%float "" "".

Definition set_Deployment (s : string) (l : Location) : Location :=
  mkLocation s (Platform l) (Latitude l) (Longitude l) (Timestamp l) (Source l).
Definition set_Platform (s : string) (l : Location) : Location :=
  mkLocation (Deployment l) s (Latitude l) (Longitude l) (Timestamp l) (Source l).
Definition set_Latitude (x : float64) (l : Location) : Location :=
  mkLocation (Deployment l) (Platform l) x (Longitude l) (Timestamp l) (Source l).
Definition set_Longitude (x : float64) (l : Location) : Location :=
  mkLocation (Deployment l) (Platform l) (Latitude l) x (Timestamp l) (Source l).
Definition set_Timestamp (s : string) (l : Location) : Location :=
  mkLocation (Deployment l) (Platform l) (Latitude l) (Longitude l) s (Source l).
Definition set_Source (s : string) (l : Location) : Location :=
  mkLocation (Deployment l) (Platform l) (Latitude l) (Longitude l) (Timestamp l) s.

(** The [json] tags of the struct, in the order of its fields; none carries
    a [binding] tag. *)
Definition assign (key : string) (v : json) (l : Location) : assigned Location :=
  if key_matches key "deployment" then
    assign_with "Deployment" set_Deployment (store_string v) l
  else if key_matches key "platform" then
    assign_with "Platform" set_Platform (store_string v) l
  else if key_matches key "latitude" then
    assign_with "Latitude" set_Latitude (store_float64 v) l
  else if key_matches key "longitude" then
    assign_with "Longitude" set_Longitude (store_float64 v) l
  else if key_matches key "timestamp" then
    assign_with "Timestamp" set_Timestamp (store_string v) l
  else if key_matches key "source" then
    assign_with "Source" set_Source (store_string v) l
  else Assigned l.

(** [c.ShouldBindJSON(&loc)]: decode, then validate the [binding] tags, of
    which there are none. *)
Definition ShouldBindJSON (body : option json) : result Location :=
  unmarshal assign zero body.

(** The table [locations]: its rows by ascending [id] (AUTOINCREMENT), that
    is in the order of their insertion.  The columns are typed, so scanning
    a row into Go variables of these types succeeds. *)
Abbreviation DB := (list Location).

(** The [WHERE] clause: a conjunction of [column = ?] with its arguments. *)
Inductive column : Type := deployment_col | platform_col.

Definition column_of (c : column) (r : Location) : string :=
  match c with
  | deployment_col => Deployment r
  | platform_col => Platform r
  end.

Definition satisfies (conds : list (column * string)) (r : Location) : Prop :=
  Forall (fun cv => column_of cv.1 r = cv.2) conds.

#[global] Instance satisfies_dec conds r : Decision (satisfies conds r).
Proof. unfold satisfies. apply _. Defined.

(** [SELECT ... FROM locations WHERE conds], with no [ORDER BY]: the table
    has no index, the rows come out of a scan in rowid order. *)
Definition select (conds : list (column * string)) (db : DB) : list Location :=
  filter (satisfies conds) db.

(** *** [handlePostLocation] *)

Inductive handlePostLocation (db : DB) (body : option json)
  : Response Location -> DB -> Prop :=
| post_bad_request e :
    ShouldBindJSON body = Err e ->
    handlePostLocation db body
      (response StatusBadRequest (ErrorJSON (BindError e))) db
| post_prepare_fails loc msg :
    ShouldBindJSON body = Ok loc ->
    handlePostLocation db body
      (response StatusInternalServerError (ErrorJSON (DriverError msg))) db
| post_exec_fails loc msg :
    ShouldBindJSON body = Ok loc ->
    handlePostLocation db body
      (response StatusInternalServerError (ErrorJSON (DriverError msg))) db
| post_success loc :
    ShouldBindJSON body = Ok loc ->
    handlePostLocation db body (response StatusOK SuccessJSON) (db ++ [loc]).

(** *** [handleGetLocations] *)

(** The query text and its arguments, as the handler builds them: the
    platform condition is added inside the branch of the deployment one. *)
Definition locations_query (deployment platform : string) : list (column * string) :=
  if bool_decide (deployment <> "") then
    (deployment_col, deployment) ::
    (if bool_decide (platform <> "") then [(platform_col, platform)] else [])
  else [].

Inductive handleGetLocations (db : DB) (deployment platform : string)
  : Response Location -> DB -> Prop :=
| locations_query_fails msg :
    handleGetLocations db deployment platform
      (response StatusInternalServerError (ErrorJSON (DriverError msg))) db
| locations_ok :
    handleGetLocations db deployment platform
      (response StatusOK
         (LocationsJSON (select (locations_query deployment platform) db))) db.

(** *** [handleGetDeployments], [handleGetPlatforms] *)

Inductive handleGetDeployments (db : DB) : Response Location -> DB -> Prop :=
| deployments_query_fails msg :
    handleGetDeployments db
      (response StatusInternalServerError (ErrorJSON (DriverError msg))) db
| deployments_ok ds :
    distinct (Deployment <$> db) ds ->
    handleGetDeployments db (response StatusOK (StringsJSON ds)) db.

Inductive handleGetPlatforms (db : DB) (deployment : string)
  : Response Location -> DB -> Prop :=
| platforms_query_fails msg :
    handleGetPlatforms db deployment
      (response StatusInternalServerError (ErrorJSON (DriverError msg))) db
| platforms_ok ps :
    distinct (Platform <$> select [(deployment_col, deployment)] db) ps ->
    handleGetPlatforms db deployment (response StatusOK (StringsJSON ps)) db.

(** *** [handleDownloadKML] *)

(** The anonymous struct of the values of [platformData]. *)
Record point : Type := mkPoint {
  ptLatitude : float64;
  ptLongitude : float64;
  ptTimestamp : string
}.

Definition point_of (r : Location) : point :=
  mkPoint (Latitude r) (Longitude r) (Timestamp r).

(** [platformData[platform] = append(platformData[platform], point)]; a key
    that is not in the map reads as the nil slice. *)
Definition collect (m : gmap string (list point)) (r : Location)
    : gmap string (list point) :=
  <[Platform r := default [] (m !! Platform r) ++ [point_of r]]> m.

Definition platformData (rows : list Location) : gmap string (list point) :=
  foldl collect ∅ rows.

(** The raw string the document starts with.  It is never passed to
    [Sprintf]: its [%s] stays in the text. *)
Definition kml_header : string :=
  String.concat nl [
    "<?xml version=" +:+ dq +:+ "1.0" +:+ dq +:+ " encoding=" +:+ dq +:+ "UTF-8" +:+ dq +:+ "?>";
    "<kml xmlns=" +:+ dq +:+ "http://www.opengis.net/kml/2.2" +:+ dq +:+ ">";
    "  <Document>";
    "    <name>%s Track</name>";
    "    <Style id=" +:+ dq +:+ "yellowLineGreenPoly" +:+ dq +:+ ">";
    "      <LineStyle>";
    "        <color>7f00ffff</color>";
    "        <width>4</width>";
    "      </LineStyle>";
    "      <PolyStyle>";
    "        <color>7f00ff00</color>";
    "      </PolyStyle>";
    "    </Style>" ].

Definition track_open (platform : string) : string :=
  String.concat nl [
    "";
    "    <Placemark>";
    "      <name>" +:+ platform +:+ " Track</name>";
    "      <styleUrl>#yellowLineGreenPoly</styleUrl>";
    "      <LineString>";
    "        <extrude>1</extrude>";
    "        <tessellate>1</tessellate>";
    "        <altitudeMode>relativeToGround</altitudeMode>";
    "        <coordinates>" ].

(** [Sprintf("%f,%f,0 ", point.Longitude, point.Latitude)] *)
Definition coordinate (p : point) : string :=
  format_f (ptLongitude p) +:+ "," +:+ format_f (ptLatitude p) +:+ ",0 ".

Definition track_close : string :=
  String.concat nl [
    "</coordinates>";
    "      </LineString>";
    "    </Placemark>" ].

Definition waypoint (p : point) : string :=
  String.concat nl [
    "";
    "    <Placemark>";
    "      <name>" +:+ ptTimestamp p +:+ "</name>";
    "      <TimeStamp>";
    "        <when>" +:+ ptTimestamp p +:+ "</when>";
    "      </TimeStamp>";
    "      <Point>";
    "        <coordinates>" +:+ format_f (ptLongitude p) +:+ "," +:+
      format_f (ptLatitude p) +:+ ",0</coordinates>";
    "      </Point>";
    "    </Placemark>" ].

Definition kml_footer : string :=
  String.concat nl [ ""; "  </Document>"; "</kml>" ].

(** The body of [for platform, points := range platformData]. *)
Definition append_group (kml : string) (g : string * list point) : string :=
  let kml := kml +:+ track_open g.1 in
  let kml := foldl (fun k p => k +:+ coordinate p) kml g.2 in
  let kml := kml +:+ track_close in
  foldl (fun k p => k +:+ waypoint p) kml g.2.

(** The document, for the order [groups] in which the range statement visits
    the entries of the map. *)
Definition kml_text (groups : list (string * list point)) : string :=
  foldl append_group kml_header groups +:+ kml_footer.

Definition kml_headers (deployment : string) : list (string * string) :=
  [ ("Content-Type", "application/vnd.google-earth.kml+xml");
    ("Content-Disposition", "attachment; filename=" +:+ deployment +:+ "_track.kml") ].

Inductive handleDownloadKML (db : DB) (deployment : string)
  : Response Location -> DB -> Prop :=
| kml_query_fails msg :
    handleDownloadKML db deployment
      (response StatusInternalServerError (ErrorJSON (DriverError msg))) db
| kml_ok rows groups :
    sorted_by Timestamp (select [(deployment_col, deployment)] db) rows ->
    groups ≡ₚ map_to_list (platformData rows) ->
    handleDownloadKML db deployment
      (response StatusOK (Text (kml_headers deployment) (kml_text groups))) db.

(** The placemark elements the loops write, in the order they write them. *)
Inductive placemark : Type :=
| LineStringPlacemark (name : string) (path : list point)
| PointPlacemark (p : point).

Definition placemarks_of_group (g : string * list point) : list placemark :=
  LineStringPlacemark g.1 g.2 :: (PointPlacemark <$> g.2).

Definition placemarks (groups : list (string * list point)) : list placemark :=
  groups ≫= placemarks_of_group.

Definition element (pm : placemark) : string :=
  match pm with
  | LineStringPlacemark name path =>
      track_open name +:+ String.concat "" (coordinate <$> path) +:+ track_close
  | PointPlacemark p => waypoint p
  end.


Definition is_Point (pm : placemark) : bool :=
  match pm with LineStringPlacemark _ _ => false | PointPlacemark _ => true end.

(** *** One run of each handler

    Every driver call returns; [ORDER BY] is a merge sort, [DISTINCT] keeps
    one occurrence of each value, and the range statement visits the map as
    [map_to_list] lists it. *)

Definition run_handlePostLocation (db : DB) (body : option json)
    : Response Location * DB :=
  match ShouldBindJSON body with
  | Err e => (response StatusBadRequest (ErrorJSON (BindError e)), db)
  | Ok loc => (response StatusOK SuccessJSON, db ++ [loc])
  end.

Definition run_handleGetLocations (db : DB) (deployment platform : string)
    : Response Location :=
  response StatusOK (LocationsJSON (select (locations_query deployment platform) db)).

Definition run_handleGetDeployments (db : DB) : Response Location :=
  response StatusOK (StringsJSON (remove_dups (Deployment <$> db))).

Definition run_handleGetPlatforms (db : DB) (deployment : string) : Response Location :=
  response StatusOK
    (StringsJSON (remove_dups (Platform <$> select [(deployment_col, deployment)] db))).

Definition order_by_timestamp (rows : list Location) : list Location :=
  merge_sort (by_key Timestamp) rows.

Definition run_handleDownloadKML (db : DB) (deployment : string) : Response Location :=
  response StatusOK
    (Text (kml_headers deployment)
       (kml_text (map_to_list (platformData
          (order_by_timestamp (select [(deployment_col, deployment)] db)))))).

End Sqlite.

(** * The document-store variant ([main.go]) *)

Module Mongo.

(** A [time.Time] as its instant, in nanoseconds since the Unix epoch; the
    monotonic reading and the location play no part in what is stored. *)
Abbreviation Time := Z.

(** [time.Time{}]: January 1 of year 1, 00:00 UTC. *)
Definition zeroTime : Time := (-62135596800 * 1000000000)%Z.

(** A BSON datetime counts milliseconds: what comes back of a [time.Time]
    that went through the collection. *)
Definition bson_time (t : Time) : Time := (t / 1000000 * 1000000)%Z.

Record Location : Type := mkLocation {
  Deployment : string;
  Platform : string;
  Latitude : float64;
  Longitude : float64;
  Timestamp : string;
  Source : string;
  CreatedAt : Time
}.

(** [var location Location] *)
Definition zero : Location := mkLocation "" "" 0%float 0%float "" "" zeroTime.

Definition set_Deployment (s : string) (l : Location) : Location :=
  mkLocation s (Platform l) (Latitude l) (Longitude l) (Timestamp l) (Source l) (CreatedAt l).
Definition set_Platform (s : string) (l : Location) : Location :=
  mkLocation (Deployment l) s (Latitude l) (Longitude l) (Timestamp l) (Source l) (CreatedAt l).
Definition set_Latitude (x : float64) (l : Location) : Location :=
  mkLocation (Deployment l) (Platform l) x (Longitude l) (Timestamp l) (Source l) (CreatedAt l).
Definition set_Longitude (x : float64) (l : Location) : Location :=
  mkLocation (Deployment l) (Platform l) (Latitude l) x (Timestamp l) (Source l) (CreatedAt l).
Definition set_Timestamp (s : string) (l : Location) : Location :=
  mkLocation (Deployment l) (Platform l) (Latitude l) (Longitude l) s (Source l) (CreatedAt l).
Definition set_Source (s : string) (l : Location) : Location :=
  mkLocation (Deployment l) (Platform l) (Latitude l) (Longitude l) (Timestamp l) s (CreatedAt l).
Definition set_CreatedAt (t : Time) (l : Location) : Location :=
  mkLocation (Deployment l) (Platform l) (Latitude l) (Longitude l) (Timestamp l) (Source l) t.


(** The collection: its documents in the order of their insertion, each as
    [cursor.All] decodes it into a [Location]. *)
Abbreviation DB := (list Location).

Section Binding.

(** [time.Time.UnmarshalJSON] on a JSON string: the time it denotes when it
    is an RFC 3339 timestamp, an error otherwise. *)
Variable UnmarshalTime : string -> option Time.

Definition store_time (v : json) : stored Time :=
  match v with
  | JNull => Keep
  | JString s => match UnmarshalTime s with Some t => Put t | None => Fail end
  | _ => Fail
  end.

Definition assign (key : string) (v : json) (l : Location) : assigned Location :=
  if key_matches key "deployment" then
    assign_with "Deployment" set_Deployment (store_string v) l
  else if key_matches key "platform" then
    assign_with "Platform" set_Platform (store_string v) l
  else if key_matches key "latitude" then
    assign_with "Latitude" set_Latitude (store_float64 v) l
  else if key_matches key "longitude" then
    assign_with "Longitude" set_Longitude (store_float64 v) l
  else if key_matches key "timestamp" then
    assign_with "Timestamp" set_Timestamp (store_string v) l
  else if key_matches key "source" then
    assign_with "Source" set_Source (store_string v) l
  else if key_matches key "created_at" then
    assign_with "CreatedAt" set_CreatedAt (store_time v) l
  else Assigned l.

Definition ShouldBindJSON (body : option json) : result Location :=
  unmarshal assign zero body.

(** *** [handlePostLocation]; [now] is what [time.Now()] returns. *)

Inductive handlePostLocation (db : DB) (body : option json) (now : Time)
  : Response Location -> DB -> Prop :=
| post_bad_request e :
    ShouldBindJSON body = Err e ->
    handlePostLocation db body now
      (response StatusBadRequest (ErrorJSON (BindError e))) db
| post_insert_fails location msg :
    ShouldBindJSON body = Ok location ->
    handlePostLocation db body now
      (response StatusInternalServerError (ErrorJSON (DriverError msg))) db
| post_success location :
    ShouldBindJSON body = Ok location ->
    handlePostLocation db body now (response StatusOK SuccessJSON)
      (db ++ [set_CreatedAt (bson_time now) location]).

End Binding.

(** *** Filters

    A [bson.M] whose values are strings: every key of the filter names a
    field of the document that holds the value given for it. *)

Definition field (name : string) (l : Location) : option string :=
  if bool_decide (name = "deployment") then Some (Deployment l)
  else if bool_decide (name = "platform") then Some (Platform l)
  else if bool_decide (name = "timestamp") then Some (Timestamp l)
  else if bool_decide (name = "source") then Some (Source l)
  else None.

Definition matches (query : gmap string string) (l : Location) : Prop :=
  map_Forall (fun k v => field k l = Some v) query.

#[global] Instance matches_dec query l : Decision (matches query l).
Proof. unfold matches. apply _. Defined.

Definition find (query : gmap string string) (db : DB) : list Location :=
  filter (matches query) db.

(** *** [handleGetLocations] *)

Definition locations_filter (deployment platform : string) : gmap string string :=
  let query : gmap string string := ∅ in
  let query := if bool_decide (deployment <> "")
               then <["deployment" := deployment]> query else query in
  if bool_decide (platform <> "")
  then <["platform" := platform]> query else query.

Inductive handleGetLocations (db : DB) (deployment platform : string)
  : Response Location -> DB -> Prop :=
| locations_find_fails msg :
    handleGetLocations db deployment platform
      (response StatusInternalServerError (ErrorJSON (DriverError msg))) db
| locations_cursor_fails msg :
    handleGetLocations db deployment platform
      (response StatusInternalServerError (ErrorJSON (DriverError msg))) db
| locations_ok locations :
    sorted_by Timestamp (find (locations_filter deployment platform) db) locations ->
    handleGetLocations db deployment platform
      (response StatusOK (LocationsJSON locations)) db.

(** *** [handleGetDeployments], [handleGetPlatforms] *)

Inductive handleGetDeployments (db : DB) : Response Location -> DB -> Prop :=
| deployments_distinct_fails msg :
    handleGetDeployments db
      (response StatusInternalServerError (ErrorJSON (DriverError msg))) db
| deployments_ok deployments :
    distinct (Deployment <$> find ∅ db) deployments ->
    handleGetDeployments db (response StatusOK (StringsJSON deployments)) db.

Inductive handleGetPlatforms (db : DB) (deployment : string)
  : Response Location -> DB -> Prop :=
| platforms_distinct_fails msg :
    handleGetPlatforms db deployment
      (response StatusInternalServerError (ErrorJSON (DriverError msg))) db
| platforms_ok platforms :
    distinct (Platform <$> find {["deployment" := deployment]} db) platforms ->
    handleGetPlatforms db deployment (response StatusOK (StringsJSON platforms)) db.

(** *** One run of each handler

    Every driver call returns; the sort is a merge sort and [Distinct]
    keeps one occurrence of each value. *)

Definition run_handlePostLocation (UnmarshalTime : string -> option Time)
    (db : DB) (body : option json) (now : Time) : Response Location * DB :=
  match ShouldBindJSON UnmarshalTime body with
  | Err e => (response StatusBadRequest (ErrorJSON (BindError e)), db)
  | Ok location =>
      (response StatusOK SuccessJSON,
       db ++ [set_CreatedAt (bson_time now) location])
  end.

Definition run_handleGetLocations (db : DB) (deployment platform : string)
    : Response Location :=
  response StatusOK
    (LocationsJSON
       (merge_sort (by_key Timestamp) (find (locations_filter deployment platform) db))).

Definition run_handleGetDeployments (db : DB) : Response Location :=
  response StatusOK (StringsJSON (remove_dups (Deployment <$> find ∅ db))).

Definition run_handleGetPlatforms (db : DB) (deployment : string) : Response Location :=
  response StatusOK
    (StringsJSON
       (remove_dups (Platform <$> find {["deployment" := deployment]} db))).

End Mongo.

(** * The routes

    What [main] registers with the router: one handler for each request.
    A run of a server is a sequence of requests, each served on the store
    the one before left. *)

Inductive Sqlite_request : Type :=
| SqlitePostLocation (body : option json)             (* POST /locations *)
| SqliteGetLocations (deployment platform : string)   (* GET /locations *)
| SqliteGetDeployments                                (* GET /deployments *)
| SqliteGetPlatforms (deployment : string)            (* GET /platforms/:deployment *)
| SqliteDownloadKML (deployment : string).            (* GET /download_kml/:deployment *)

Definition Sqlite_serve (db : list Sqlite.Location) (req : Sqlite_request)
    (resp : Response Sqlite.Location) (db' : list Sqlite.Location) : Prop :=
  match req with
  | SqlitePostLocation body => Sqlite.handlePostLocation db body resp db'
  | SqliteGetLocations deployment platform =>
      Sqlite.handleGetLocations db deployment platform resp db'
  | SqliteGetDeployments => Sqlite.handleGetDeployments db resp db'
  | SqliteGetPlatforms deployment => Sqlite.handleGetPlatforms db deployment resp db'
  | SqliteDownloadKML deployment => Sqlite.handleDownloadKML db deployment resp db'
  end.

Definition Sqlite_read_only (req : Sqlite_request) : bool :=
  match req with SqlitePostLocation _ => false | _ => true end.

Inductive Sqlite_run (db : list Sqlite.Location)
  : list (Sqlite_request * Response Sqlite.Location) -> list Sqlite.Location -> Prop :=
| sqlite_run_nil : Sqlite_run db [] db
| sqlite_run_cons req resp db1 trace db2 :
    Sqlite_serve db req resp db1 ->
    Sqlite_run db1 trace db2 ->
    Sqlite_run db ((req, resp) :: trace) db2.

(** The document-store variant; a submission comes with the time at which
    it is served. *)
Inductive Mongo_request : Type :=
| MongoPostLocation (body : option json) (now : Z)    (* POST /api/data *)
| MongoGetLocations (deployment platform : string)    (* GET /api/locations *)
| MongoGetDeployments                                 (* GET /api/deployments *)
| MongoGetPlatforms (deployment : string).            (* GET /api/platforms/:deployment *)

Definition Mongo_serve (UnmarshalTime : string -> option Z)
    (db : list Mongo.Location) (req : Mongo_request)
    (resp : Response Mongo.Location) (db' : list Mongo.Location) : Prop :=
  match req with
  | MongoPostLocation body now =>
      Mongo.handlePostLocation UnmarshalTime db body now resp db'
  | MongoGetLocations deployment platform =>
      Mongo.handleGetLocations db deployment platform resp db'
  | MongoGetDeployments => Mongo.handleGetDeployments db resp db'
  | MongoGetPlatforms deployment => Mongo.handleGetPlatforms db deployment resp db'
  end.

Definition Mongo_read_only (req : Mongo_request) : bool :=
  match req with MongoPostLocation _ _ => false | _ => true end.

Inductive Mongo_run (UnmarshalTime : string -> option Z) (db : list Mongo.Location)
  : list (Mongo_request * Response Mongo.Location) -> list Mongo.Location -> Prop :=
| mongo_run_nil : Mongo_run UnmarshalTime db [] db
| mongo_run_cons req resp db1 trace db2 :
    Mongo_serve UnmarshalTime db req resp db1 ->
    Mongo_run UnmarshalTime db1 trace db2 ->
    Mongo_run UnmarshalTime db ((req, resp) :: trace) db2.

(** Two responses carry the same results: the same status and the same
    records or strings, in whatever order.  Two track documents are compared
    by the placemarks they are made of (see [same_tracks]). *)
Definition same_results {L : Type} (r1 r2 : Response L) : Prop :=
  code r1 = code r2 /\
  match content r1, content r2 with
  | LocationsJSON a, LocationsJSON b => a ≡ₚ b
  | StringsJSON a, StringsJSON b => a ≡ₚ b
  | SuccessJSON, SuccessJSON => True
  | Text h1 _, Text h2 _ => h1 = h2
  | ErrorJSON _, ErrorJSON _ => True
  | _, _ => False
  end.

(** Two track documents with the same headers, a path for the same
    platforms and the same waypoints. *)
Definition same_tracks (r1 r2 : Response Sqlite.Location) : Prop :=
  exists headers g1 g2,
    content r1 = Text headers (Sqlite.kml_text g1) /\
    content r2 = Text headers (Sqlite.kml_text g2) /\
    g1.*1 ≡ₚ g2.*1 /\
    filter Sqlite.is_Point (Sqlite.placemarks g1) ≡ₚ
    filter Sqlite.is_Point (Sqlite.placemarks g2).

(** * What the specification says of a request

    The data model of the specification: the fields of a location record,
    their types, and which of them a submission must carry. *)

Inductive field_type : Type := TString | TFloat64 | TTime.

Definition Sqlite_fields : list (string * field_type) :=
  [ ("deployment", TString); ("platform", TString); ("latitude", TFloat64);
    ("longitude", TFloat64); ("timestamp", TString); ("source", TString) ].

Definition Mongo_fields : list (string * field_type) :=
  Sqlite_fields ++ [ ("created_at", TTime) ].

Definition required_fields : list string :=
  [ "deployment"; "platform"; "timestamp"; "latitude"; "longitude" ].

(** [v] is a value of the type [t]. *)
Definition of_type (UnmarshalTime : string -> option Z) (t : field_type) (v : json) : Prop :=
  match t, v with
  | TString, JString _ => True
  | TFloat64, JNumber (Some _) => True
  | TTime, JString s => is_Some (UnmarshalTime s)
  | _, _ => False
  end.

(** The body is an object without a member for the field [name]. *)
Definition missing_field (name : string) (body : option json) : Prop :=
  exists ms, body = Some (JObject ms) /\
    forall k v, (k, v) ∈ ms -> key_matches k name = false.

(** The body is an object with a member for a field of [fields] whose value
    is of another type than the field: not [null], which JSON allows for
    any type, and not a value of the type. *)
Definition wrong_type (fields : list (string * field_type))
    (UnmarshalTime : string -> option Z) (body : option json) : Prop :=
  exists ms k v name t,
    body = Some (JObject ms) /\ (k, v) ∈ ms /\ (name, t) ∈ fields /\
    key_matches k name = true /\ v <> JNull /\ ~ of_type UnmarshalTime t v.

(** An ingestion handler answers this body with a client error, whatever
    the store, and leaves the store as it was. *)
Definition rejected_unchanged {L : Type}
    (handler : list L -> option json -> Response L -> list L -> Prop)
    (body : option json) : Prop :=
  forall db resp db',
    handler db body resp db' -> code resp = StatusBadRequest /\ db' = db.


(** The response is a success, or the failure of a driver call. *)
Definition ok_or_store_failure {L : Type} (r : Response L) : Prop :=
  code r = StatusOK \/
  exists msg, r = response StatusInternalServerError (ErrorJSON (DriverError msg)).

(** ** Sample requests and stores *)

Definition sample_time : string := "2024-01-01T00:00:00Z".

(** The example submission of the specification. *)
Definition sample_body : option json :=
  Some (JObject [ ("deployment", JString "D1"); ("platform", JString "P1");
                  ("timestamp", JString sample_time);
                  ("latitude", JNumber (Some 1%float));
                  ("longitude", JNumber (Some 2%float)) ]).

(** The same without [platform]. *)
Definition body_without_platform : option json :=
  Some (JObject [ ("deployment", JString "D1");
                  ("timestamp", JString sample_time);
                  ("latitude", JNumber (Some 1%float));
                  ("longitude", JNumber (Some 2%float)) ]).

(** The same with a [null] platform. *)
Definition body_null_platform : option json :=
  Some (JObject [ ("deployment", JString "D1"); ("platform", JNull);
                  ("timestamp", JString sample_time);
                  ("latitude", JNumber (Some 1%float));
                  ("longitude", JNumber (Some 2%float)) ]).

(** A platform that is a number, under a key in capitals. *)
Definition body_number_platform : option json :=
  Some (JObject [ ("deployment", JString "D1");
                  ("PLATFORM", JNumber (Some 7%float));
                  ("timestamp", JString sample_time);
                  ("latitude", JNumber (Some 1%float));
                  ("longitude", JNumber (Some 2%float)) ]).

(** A submission that carries a [created_at] of its own. *)
Definition body_with_created_at : option json :=
  Some (JObject [ ("deployment", JString "D1"); ("platform", JString "P1");
                  ("timestamp", JString sample_time);
                  ("latitude", JNumber (Some 1%float));
                  ("longitude", JNumber (Some 2%float));
                  ("source", JString "archive");
                  ("created_at", JString "1999-12-31T23:59:59Z") ]).

(** A stand-in for [time.Time.UnmarshalJSON] that knows the two timestamps
    of the samples (their Unix time in nanoseconds). *)
Definition sample_UnmarshalTime (s : string) : option Z :=
  if bool_decide (s = "1999-12-31T23:59:59Z") then Some (946684799 * 1000000000)%Z
  else if bool_decide (s = sample_time) then Some (1704067200 * 1000000000)%Z
  else None.

(** 2024-06-01 12:00:00.123456789 UTC, as [time.Now()]. *)
Definition sample_now : Z := 1717243200123456789%Z.

Definition sqlite_P1_late : Sqlite.Location :=
  Sqlite.mkLocation "D1" "P1" 1%float 2%float "2024-01-02T00:00:00Z" "".
Definition sqlite_P2_early : Sqlite.Location :=
  Sqlite.mkLocation "D1" "P2" 1.5%float 2.5%float "2024-01-01T00:00:00Z" "".
Definition sqlite_P1_early : Sqlite.Location :=
  Sqlite.mkLocation "D1" "P1" 3%float 4%float "2024-01-01T00:00:00Z" "".
Definition sqlite_other : Sqlite.Location :=
  Sqlite.mkLocation "D2" "P9" 5%float 6%float "2023-12-31T00:00:00Z" "".

(** Four rows, inserted in this order. *)
Definition sqlite_db : list Sqlite.Location :=
  [ sqlite_P1_late; sqlite_P2_early; sqlite_P1_early; sqlite_other ].

Definition mongo_P1_late : Mongo.Location :=
  Mongo.mkLocation "D1" "P1" 1%float 2%float "2024-01-02T00:00:00Z" "" 0.
Definition mongo_P2_early : Mongo.Location :=
  Mongo.mkLocation "D1" "P2" 1.5%float 2.5%float "2024-01-01T00:00:00Z" "" 0.
Definition mongo_other : Mongo.Location :=
  Mongo.mkLocation "D2" "P1" 5%float 6%float "2023-12-31T00:00:00Z" "" 0.

Definition mongo_db : list Mongo.Location :=
  [ mongo_P1_late; mongo_P2_early; mongo_other ].


(** The records of [Mongo.run_handleGetLocations]. *)
Definition Mongo_listing (db : list Mongo.Location) (deployment platform : string)
    : list Mongo.Location :=
  merge_sort (by_key Mongo.Timestamp)
    (Mongo.find (Mongo.locations_filter deployment platform) db).

(** The record of the example submission, as bound. *)
Definition mongo_submitted : Mongo.Location :=
  Mongo.mkLocation "D1" "P1" 1%float 2%float sample_time "" Mongo.zeroTime.

(** The store after the example submission, and after the same submission
    one second later. *)
Definition mongo_once : list Mongo.Location :=
  [ Mongo.set_CreatedAt (Mongo.bson_time sample_now) mongo_submitted ].
Definition mongo_twice : list Mongo.Location :=
  mongo_once ++
  [ Mongo.set_CreatedAt (Mongo.bson_time (sample_now + 1000000000)) mongo_submitted ].

(** The submission that carries the [created_at] of 1999-12-31T23:59:59Z is
    bound with that time. *)
Definition mongo_backdated : Mongo.Location :=
  Mongo.mkLocation "D1" "P1" 1%float 2%float sample_time "archive"
    (946684799 * 1000000000).

(** ** Bodies that do not bind *)



(** The members of two objects agree up to the case of their keys. *)
Definition same_members (ms ms' : list (string * json)) : Prop :=
  Forall2 (fun a b => foldName a.1 = foldName b.1 /\ a.2 = b.2) ms ms'.

(** The members of the example submission, and the platform-specific
    [data] member a submission may carry beside them. *)
Definition sample_members : list (string * json) :=
  [ ("deployment", JString "D1"); ("platform", JString "P1");
    ("timestamp", JString sample_time);
    ("latitude", JNumber (Some 1%float));
    ("longitude", JNumber (Some 2%float)) ].


(** The example submission under keys in other cases. *)
Definition sample_members_capitals : list (string * json) :=
  [ ("Deployment", JString "D1"); ("PLATFORM", JString "P1");
    ("TimeStamp", JString sample_time);
    ("latitude", JNumber (Some 1%float));
    ("LONGITUDE", JNumber (Some 2%float)) ].

(** ** Plain text *)



(** * The servers

    What [main] builds around the handlers: the table of routes and, in the
    relational variant, the middleware that runs before every handler.  The
    router is gin's: a request comes as its method, the segments of its
    path, the first value of each query parameter and its body.  A path
    with an empty segment (a doubled or a trailing slash) is left out where
    the router could answer with a redirect of its own. *)

Inductive http_method : Type := GET | POST | OPTIONS | OtherMethod (name : string).

(** What lies between two slashes of a path. *)
Definition segment (s : string) : Prop := s <> "" /\ occurs "/" s = false.

Record request : Type := mkRequest {
  req_method : http_method;
  req_path : list string;
  req_query : gmap string string;
  req_body : option json
}.

(** [c.Query(key)]: the empty string when the parameter is absent. *)
Definition Query (req : request) (key : string) : string :=
  default "" (req_query req !! key).

(** What comes back: the headers set by the middleware, and the response
    of a handler, or the status alone of [c.AbortWithStatus], or the
    router's answer to a request without a route. *)
Inductive reply (L : Type) : Type :=
| Served (r : Response L)
| Aborted (status : Z)
| PageNotFound.
Arguments Served {L} r.
Arguments Aborted {L} status.
Arguments PageNotFound {L}.

Record http_response (L : Type) : Type := mkHttp {
  middleware_headers : list (string * string);
  outcome : reply L
}.
Arguments mkHttp {L} middleware_headers outcome.
Arguments middleware_headers {L} h.
Arguments outcome {L} h.

Definition status_of {L : Type} (r : reply L) : Z :=
  match r with
  | Served resp => code resp
  | Aborted status => status
  | PageNotFound => StatusNotFound
  end.



(** [r.POST("/locations", ...)], [r.GET("/locations", ...)],
    [r.GET("/deployments", ...)], [r.GET("/platforms/:deployment", ...)],
    [r.GET("/download_kml/:deployment", ...)] *)
Definition Sqlite_route (req : request) : option Sqlite_request :=
  match req_method req, req_path req with
  | POST, [a] =>
      if decide (a = "locations") then Some (SqlitePostLocation (req_body req))
      else None
  | GET, [a] =>
      if decide (a = "locations")
      then Some (SqliteGetLocations (Query req "deployment") (Query req "platform"))
      else if decide (a = "deployments") then Some SqliteGetDeployments
      else None
  | GET, [a; d] =>
      if decide (a = "platforms") then Some (SqliteGetPlatforms d)
      else if decide (a = "download_kml") then Some (SqliteDownloadKML d)
      else None
  | _, _ => None
  end.


(** [r.POST("/api/data", ...)], [r.GET("/api/locations", ...)],
    [r.GET("/api/deployments", ...)], [r.GET("/api/platforms/:deployment", ...)] *)
Definition Mongo_route (req : request) (now : Z) : option Mongo_request :=
  match req_method req, req_path req with
  | POST, [a; b] =>
      if decide (a = "api" /\ b = "data")
      then Some (MongoPostLocation (req_body req) now) else None
  | GET, [a; b] =>
      if decide (a = "api" /\ b = "locations")
      then Some (MongoGetLocations (Query req "deployment") (Query req "platform"))
      else if decide (a = "api" /\ b = "deployments") then Some MongoGetDeployments
      else None
  | GET, [a; b; d] =>
      if decide (a = "api" /\ b = "platforms") then Some (MongoGetPlatforms d)
      else None
  | _, _ => None
  end.

(** The document-store variant registers no middleware of its own. *)
Inductive Mongo_server (UnmarshalTime : string -> option Z)
    (db : list Mongo.Location) (req : request) (now : Z)
  : http_response Mongo.Location -> list Mongo.Location -> Prop :=
| mongo_routed mreq resp db' :
    Forall segment (req_path req) ->
    Mongo_route req now = Some mreq ->
    Mongo_serve UnmarshalTime db mreq resp db' ->
    Mongo_server UnmarshalTime db req now (mkHttp [] (Served resp)) db'
| mongo_no_route :
    Forall segment (req_path req) ->
    Mongo_route req now = None ->
    Mongo_server UnmarshalTime db req now (mkHttp [] PageNotFound) db.

Definition sqlite_post_request : request :=
  mkRequest POST ["locations"] ∅ sample_body.
Definition mongo_post_request : request :=
  mkRequest POST ["api"; "data"] ∅ sample_body.

(** * Properties *)

(** ** Orders and distinct values *)

#[global] Instance by_key_total {A : Type} (key : A -> string) : Total (by_key key).
Proof. intros a b. unfold by_key. apply (total String.le). Qed.

#[global] Instance by_key_trans {A : Type} (key : A -> string) : Transitive (by_key key).
Proof. intros a b c. unfold by_key. apply (transitivity (R := String.le)). Qed.

Lemma sorted_by_merge_sort {A : Type} (key : A -> string) (sel : list A) :
  sorted_by key sel (merge_sort (by_key key) sel).
Proof.
  split.
  - apply merge_sort_Permutation.
  - apply (Sorted_merge_sort (by_key key)).
Qed.

Lemma sorted_by_nil {A : Type} (key : A -> string) (res : list A) :
  sorted_by key [] res -> res = [].
Proof. intros [Hp _]. by apply Permutation_nil_r. Qed.

Lemma sorted_by_perm {A : Type} (key : A -> string) (sel r1 r2 : list A) :
  sorted_by key sel r1 -> sorted_by key sel r2 -> r1 ≡ₚ r2.
Proof. intros [H1 _] [H2 _]. by rewrite H1, H2. Qed.


Lemma distinct_remove_dups (xs : list string) : distinct xs (remove_dups xs).
Proof.
  split; [apply NoDup_remove_dups|]. intros x. apply elem_of_remove_dups.
Qed.


Lemma distinct_perm (xs d1 d2 : list string) :
  distinct xs d1 -> distinct xs d2 -> d1 ≡ₚ d2.
Proof.
  intros [N1 H1] [N2 H2]. apply NoDup_Permutation; [done..|].
  intros x. by rewrite H1, H2.
Qed.

(** ** Strings *)

Lemma append_assoc (a b c : string) : (a +:+ b) +:+ c = a +:+ (b +:+ c).
Proof.
  induction a as [|x a IH]; [done|].
  change (String x ((a +:+ b) +:+ c) = String x (a +:+ (b +:+ c))).
  by rewrite IH.
Qed.

Lemma append_nil_r (a : string) : a +:+ "" = a.
Proof.
  induction a as [|x a IH]; [done|].
  change (String x (a +:+ "") = String x a). by rewrite IH.
Qed.

Lemma concat_empty_app (xs ys : list string) :
  String.concat "" (xs ++ ys) = String.concat "" xs +:+ String.concat "" ys.
Proof.
  induction xs as [|x xs IH]; [done|].
  destruct xs as [|x' xs].
  - cbn. destruct ys as [|y ys]; cbn; [by rewrite append_nil_r|done].
  - change (String.concat "" ((x :: x' :: xs) ++ ys))
      with (x +:+ "" +:+ String.concat "" ((x' :: xs) ++ ys)).
    rewrite IH. cbn [String.concat]. by rewrite !append_assoc.
Qed.

Lemma foldl_append {A : Type} (f : A -> string) (k : string) (xs : list A) :
  foldl (fun k x => k +:+ f x) k xs = k +:+ String.concat "" (f <$> xs).
Proof.
  revert k. induction xs as [|x xs IH]; intros k; cbn [foldl].
  - by rewrite append_nil_r.
  - rewrite IH, append_assoc. f_equal.
    change (f <$> x :: xs) with ([f x] ++ (f <$> xs)).
    by rewrite concat_empty_app.
Qed.

(** ** The track export: grouping and text *)

Module SqliteFacts.
Import Sqlite.

Lemma concat_empty_cons (x : string) (xs : list string) :
  String.concat "" (x :: xs) = x +:+ String.concat "" xs.
Proof. apply (concat_empty_app [x] xs). Qed.

Lemma append_group_elements (kml : string) (g : string * list point) :
  append_group kml g =
  kml +:+ String.concat "" (element <$> placemarks_of_group g).
Proof.
  unfold append_group, placemarks_of_group. rewrite !foldl_append.
  rewrite fmap_cons, concat_empty_cons. cbn [element].
  rewrite <- list_fmap_compose. rewrite !append_assoc. done.
Qed.

Lemma foldl_append_group (kml : string) (groups : list (string * list point)) :
  foldl append_group kml groups =
  kml +:+ String.concat "" (element <$> placemarks groups).
Proof.
  unfold placemarks. revert kml.
  induction groups as [|g groups IH]; intros kml; cbn [foldl].
  - by rewrite append_nil_r.
  - rewrite IH, append_group_elements, append_assoc, bind_cons, fmap_app.
    by rewrite concat_empty_app.
Qed.

(** The document is the header, the placemark elements in the order the
    loops write them, and the footer. *)
Lemma kml_text_elements (groups : list (string * list point)) :
  kml_text groups =
  kml_header +:+ String.concat "" (element <$> placemarks groups) +:+ kml_footer.
Proof. unfold kml_text. by rewrite foldl_append_group, append_assoc. Qed.

Lemma collect_lookup (m : gmap string (list point)) (r : Location) (p : string) :
  collect m r !! p =
  if decide (Platform r = p)
  then Some (default [] (m !! p) ++ [point_of r]) else m !! p.
Proof.
  unfold collect. case_decide as Hp.
  - subst p. by rewrite lookup_insert_eq.
  - by rewrite lookup_insert_ne.
Qed.

(** What the grouping loop leaves under a key: the points of the rows of
    that platform, in the order of the rows, after what was there. *)
Lemma foldl_collect_lookup (m : gmap string (list point)) (rows : list Location) (p : string) :
  foldl collect m rows !! p =
  match point_of <$> filter (fun r => Platform r = p) rows with
  | [] => m !! p
  | pts => Some (default [] (m !! p) ++ pts)
  end.
Proof.
  revert m. induction rows as [|r rows IH]; intros m; [done|].
  cbn [foldl]. rewrite IH, collect_lookup.
  destruct (decide (Platform r = p)) as [Hp|Hp].
  - rewrite filter_cons_True by done. rewrite fmap_cons. cbn [default].
    destruct (point_of <$> filter (fun r0 => Platform r0 = p) rows); cbn.
    + done.
    + by rewrite <- app_assoc.
  - by rewrite filter_cons_False by done.
Qed.

Lemma platformData_lookup (rows : list Location) (p : string) :
  platformData rows !! p =
  match point_of <$> filter (fun r => Platform r = p) rows with
  | [] => None
  | pts => Some pts
  end.
Proof. unfold platformData. by rewrite foldl_collect_lookup, lookup_empty. Qed.

Lemma platformData_group (rows : list Location) (p : string) (pts : list point) :
  (p, pts) ∈ map_to_list (platformData rows) ->
  pts = point_of <$> filter (fun r => Platform r = p) rows /\ pts <> [].
Proof.
  rewrite elem_of_map_to_list, platformData_lookup.
  destruct (point_of <$> filter (fun r => Platform r = p) rows); naive_solver.
Qed.

Lemma foldl_collect_dom (m : gmap string (list point)) (rows : list Location) :
  dom (foldl collect m rows) = dom m ∪ list_to_set (Platform <$> rows).
Proof.
  revert m. induction rows as [|r rows IH]; intros m; cbn [foldl].
  - set_solver.
  - rewrite IH. unfold collect. rewrite dom_insert_L. set_solver.
Qed.

(** The keys of the map are the platforms of the rows. *)
Lemma platformData_dom (rows : list Location) :
  dom (platformData rows) = list_to_set (Platform <$> rows).
Proof. unfold platformData. rewrite foldl_collect_dom. set_solver. Qed.

Lemma collect_points (m : gmap string (list point)) (r : Location) :
  map_to_list (collect m r) ≫= snd ≡ₚ (map_to_list m ≫= snd) ++ [point_of r].
Proof.
  unfold collect. destruct (m !! Platform r) as [old|] eqn:Hm; cbn [default].
  - rewrite <- (insert_delete_eq m).
    rewrite map_to_list_insert by apply lookup_delete_eq.
    rewrite <- (map_to_list_delete m (Platform r) old) by done.
    rewrite !bind_cons. cbn. rewrite <- !app_assoc. f_equiv.
    apply Permutation_app_comm.
  - rewrite map_to_list_insert by done. rewrite bind_cons. cbn.
    apply (Permutation_app_comm [point_of r]).
Qed.

Lemma foldl_collect_points (m : gmap string (list point)) (rows : list Location) :
  map_to_list (foldl collect m rows) ≫= snd ≡ₚ
  (map_to_list m ≫= snd) ++ (point_of <$> rows).
Proof.
  revert m. induction rows as [|r rows IH]; intros m; cbn [foldl].
  - by rewrite app_nil_r.
  - rewrite IH, collect_points, fmap_cons, <- app_assoc. done.
Qed.

(** Every row lands in exactly one group. *)
Lemma platformData_points (rows : list Location) :
  map_to_list (platformData rows) ≫= snd ≡ₚ point_of <$> rows.
Proof.
  unfold platformData. by rewrite foldl_collect_points, map_to_list_empty.
Qed.

Lemma placemarks_cons (g : string * list point) (groups : list (string * list point)) :
  placemarks (g :: groups) =
  LineStringPlacemark g.1 g.2 :: (PointPlacemark <$> g.2) ++ placemarks groups.
Proof. unfold placemarks. by rewrite bind_cons. Qed.


Lemma filter_Point_waypoints (pts : list point) :
  filter is_Point (PointPlacemark <$> pts) = PointPlacemark <$> pts.
Proof.
  induction pts as [|p pts IH]; [done|].
  rewrite fmap_cons, filter_cons_True by (cbn; tauto). by rewrite IH.
Qed.


(** One waypoint per point of a group. *)
Lemma filter_Point_placemarks (groups : list (string * list point)) :
  filter is_Point (placemarks groups) = PointPlacemark <$> (groups ≫= snd).
Proof.
  induction groups as [|g groups IH]; [done|].
  rewrite placemarks_cons, filter_cons_False by (cbn; tauto).
  by rewrite filter_app, filter_Point_waypoints, IH, bind_cons, fmap_app.
Qed.

(** Group after group: the path through the points of the rows of the
    platform, then a waypoint for each of them. *)
Lemma placemarks_by_platform (rows : list Location) (groups : list (string * list point)) :
  Forall (fun g => g ∈ map_to_list (platformData rows)) groups ->
  placemarks groups =
  groups.*1 ≫= fun p =>
    let points := point_of <$> filter (fun r => Platform r = p) rows in
    LineStringPlacemark p points :: (PointPlacemark <$> points).
Proof.
  induction 1 as [|[p pts] groups Hin _ IH]; [done|].
  rewrite placemarks_cons, fmap_cons, bind_cons, IH.
  apply platformData_group in Hin as [-> _]. done.
Qed.


Lemma groups_points (rows recs : list Location) (groups : list (string * list point)) :
  rows ≡ₚ recs ->
  groups ≡ₚ map_to_list (platformData rows) ->
  groups ≫= snd ≡ₚ point_of <$> recs.
Proof. intros Hr Hg. by rewrite Hg, platformData_points, Hr. Qed.

End SqliteFacts.

(** ** Binding a request body *)

Lemma key_matches_fold (key name : string) :
  key_matches key name = bool_decide (foldName key = foldName name).
Proof.
  unfold key_matches. case_bool_decide as Hk; [|done].
  subst key. by rewrite bool_decide_eq_true_2.
Qed.

Section Object.
Context {L : Type} (assign : string -> json -> L -> assigned L).

(** A recorded type error is never dropped. *)
Lemma object_saved (ms : list (string * json)) (l l' : L) (e : bind_error) s :
  object assign ms l (Some e) = Ok (l', s) -> is_Some s.
Proof.
  revert l. induction ms as [|[k v] ms IH]; intros l; cbn.
  - intros [= <- <-]. eauto.
  - destruct (assign k v l); eauto; discriminate.
Qed.

(** A member that no struct accepts makes the decoding fail. *)
Lemma object_refuses (ms : list (string * json)) (k : string) (v : json) :
  (k, v) ∈ ms ->
  (forall l, exists e, assign k v l = TypeError e \/ assign k v l = Abort e) ->
  forall l saved l', object assign ms l saved <> Ok (l', None).
Proof.
  intros Hin Hbad. induction ms as [|[k' v'] ms IH]; intros l saved l'.
  - by apply not_elem_of_nil in Hin.
  - cbn. apply elem_of_cons in Hin as [[= <- <-]|Hin].
    + destruct (Hbad l) as [e [-> | ->]]; [|done].
      destruct saved as [e0|]; intros H; by apply object_saved in H as [? ?].
    + destruct (assign k' v' l); [by apply IH..|done].
Qed.

Lemma unmarshal_refuses (zero : L) (ms : list (string * json)) (k : string) (v : json) :
  (k, v) ∈ ms ->
  (forall l, exists e, assign k v l = TypeError e \/ assign k v l = Abort e) ->
  exists e, unmarshal assign zero (Some (JObject ms)) = Err e.
Proof.
  intros Hin Hbad. cbn.
  pose proof (object_refuses ms k v Hin Hbad zero None) as H.
  destruct (object assign ms zero None) as [[l [e|]]|e]; eauto.
  by destruct (H l).
Qed.
End Object.

(** Decides the branch of [assign] from the folded key. *)
Ltac by_folded_key H :=
  rewrite !key_matches_fold, H; vm_compute.

Lemma Sqlite_assign_refuses (k : string) (v : json) (name : string) (t : field_type) :
  (name, t) ∈ Sqlite_fields -> key_matches k name = true ->
  v <> JNull -> ~ of_type (fun _ => None) t v ->
  forall l, exists e,
    Sqlite.assign k v l = TypeError e \/ Sqlite.assign k v l = Abort e.
Proof.
  intros Hf Hk Hnull Ht l.
  rewrite key_matches_fold in Hk. apply bool_decide_eq_true_1 in Hk.
  unfold Sqlite_fields in Hf. unfold Sqlite.assign.
  repeat (apply elem_of_cons in Hf as [[= -> ->]|Hf]);
    [..|by apply not_elem_of_nil in Hf];
    by_folded_key Hk; destruct v as [| |[]| | |]; cbn in Ht; try tauto; eauto.
Qed.

Lemma Mongo_assign_refuses (UnmarshalTime : string -> option Z)
    (k : string) (v : json) (name : string) (t : field_type) :
  (name, t) ∈ Mongo_fields -> key_matches k name = true ->
  v <> JNull -> ~ of_type UnmarshalTime t v ->
  forall l, exists e,
    Mongo.assign UnmarshalTime k v l = TypeError e \/
    Mongo.assign UnmarshalTime k v l = Abort e.
Proof.
  intros Hf Hk Hnull Ht l.
  rewrite key_matches_fold in Hk. apply bool_decide_eq_true_1 in Hk.
  unfold Mongo_fields, Sqlite_fields in Hf. unfold Mongo.assign.
  cbn [app] in Hf.
  repeat (apply elem_of_cons in Hf as [[= -> ->]|Hf]);
    [..|by apply not_elem_of_nil in Hf];
    rewrite !key_matches_fold, Hk; cbn [bool_decide decide_rel];
    unfold Mongo.store_time;
    destruct v as [| |[]| | |]; cbn in Ht; try tauto; vm_compute; eauto.
  destruct (UnmarshalTime s); [exfalso; apply Ht; eauto | eauto].
Qed.

Lemma Sqlite_wrong_type_bind (body : option json) :
  wrong_type Sqlite_fields (fun _ => None) body ->
  exists e, Sqlite.ShouldBindJSON body = Err e.
Proof.
  intros (ms & k & v & name & t & -> & Hin & Hf & Hk & Hnull & Ht).
  apply (unmarshal_refuses Sqlite.assign Sqlite.zero ms k v Hin).
  by apply (Sqlite_assign_refuses k v name t).
Qed.

Lemma Mongo_wrong_type_bind (UnmarshalTime : string -> option Z) (body : option json) :
  wrong_type Mongo_fields UnmarshalTime body ->
  exists e, Mongo.ShouldBindJSON UnmarshalTime body = Err e.
Proof.
  intros (ms & k & v & name & t & -> & Hin & Hf & Hk & Hnull & Ht).
  apply (unmarshal_refuses (Mongo.assign UnmarshalTime) Mongo.zero ms k v Hin).
  by apply (Mongo_assign_refuses UnmarshalTime k v name t).
Qed.

Lemma Sqlite_bind_error_rejected (body : option json) (e : bind_error) :
  Sqlite.ShouldBindJSON body = Err e ->
  forall db resp db', Sqlite.handlePostLocation db body resp db' ->
    resp = response StatusBadRequest (ErrorJSON (BindError e)) /\ db' = db.
Proof. intros He db resp db' H. inversion H; subst; split; congruence. Qed.

Lemma Mongo_bind_error_rejected (UnmarshalTime : string -> option Z)
    (body : option json) (e : bind_error) :
  Mongo.ShouldBindJSON UnmarshalTime body = Err e ->
  forall db now resp db', Mongo.handlePostLocation UnmarshalTime db body now resp db' ->
    resp = response StatusBadRequest (ErrorJSON (BindError e)) /\ db' = db.
Proof. intros He db now resp db' H. inversion H; subst; split; congruence. Qed.

(** C1 (as amended): in both variants, a submission whose JSON body holds,
    for one of the fields of a location record, a value that is neither
    [null] nor of the type of the field is answered with status 400, is
    answered so whatever the store holds, and leaves the store as it was.
    A body that lacks a field is not among them. *)
Theorem C1_wrong_type_rejected (UnmarshalTime : string -> option Z)
    (now : Z) (body : option json) :
  (wrong_type Sqlite_fields (fun _ => None) body ->
   rejected_unchanged Sqlite.handlePostLocation body /\
   exists e, forall db,
     Sqlite.handlePostLocation db body
       (response StatusBadRequest (ErrorJSON (BindError e))) db) /\
  (wrong_type Mongo_fields UnmarshalTime body ->
   rejected_unchanged
     (fun db b => Mongo.handlePostLocation UnmarshalTime db b now) body /\
   exists e, forall db,
     Mongo.handlePostLocation UnmarshalTime db body now
       (response StatusBadRequest (ErrorJSON (BindError e))) db).
Proof.
  split; intros Hw.
  - destruct (Sqlite_wrong_type_bind body Hw) as [e He]. split.
    + intros db resp db' H.
      destruct (Sqlite_bind_error_rejected body e He db resp db' H) as [-> ->].
      done.
    + exists e. intros db. by constructor.
  - destruct (Mongo_wrong_type_bind UnmarshalTime body Hw) as [e He]. split.
    + intros db resp db' H.
      destruct (Mongo_bind_error_rejected UnmarshalTime body e He db now resp db' H)
        as [-> ->].
      done.
    + exists e. intros db. by constructor.
Qed.

Lemma body_number_platform_wrong_type (UnmarshalTime : string -> option Z) :
  wrong_type Sqlite_fields (fun _ => None) body_number_platform /\
  wrong_type Mongo_fields UnmarshalTime body_number_platform.
Proof.
  split.
  - exists [ ("deployment", JString "D1");
             ("PLATFORM", JNumber (Some 7%float));
             ("timestamp", JString sample_time);
             ("latitude", JNumber (Some 1%float));
             ("longitude", JNumber (Some 2%float)) ],
      "PLATFORM", (JNumber (Some 7%float)), "platform", TString.
    split; [done|]. split; [set_solver|]. split; [set_solver|].
    split; [done|]. split; [done|]. cbn. tauto.
  - exists [ ("deployment", JString "D1");
             ("PLATFORM", JNumber (Some 7%float));
             ("timestamp", JString sample_time);
             ("latitude", JNumber (Some 1%float));
             ("longitude", JNumber (Some 2%float)) ],
      "PLATFORM", (JNumber (Some 7%float)), "platform", TString.
    split; [done|]. split; [set_solver|]. split; [set_solver|].
    split; [done|]. split; [done|]. cbn. tauto.
Qed.

(** C1, at a platform that is a number under the key [PLATFORM]. *)
Lemma C1_wrong_type_rejected_witness :
  (wrong_type Sqlite_fields (fun _ => None) body_number_platform /\
   rejected_unchanged Sqlite.handlePostLocation body_number_platform) /\
  (wrong_type Mongo_fields sample_UnmarshalTime body_number_platform /\
   rejected_unchanged
     (fun db b => Mongo.handlePostLocation sample_UnmarshalTime db b sample_now)
     body_number_platform).
Proof.
  pose proof (C1_wrong_type_rejected sample_UnmarshalTime sample_now
                body_number_platform) as [Hs Hm].
  pose proof (body_number_platform_wrong_type sample_UnmarshalTime) as [Ws Wm].
  split; (split; [assumption|]).
  - exact (proj1 (Hs Ws)).
  - exact (proj1 (Hm Wm)).
Defined.

(** C1 (as stated) fails: the body of the example submission without its
    [platform] member lacks a required field, and both variants answer it
    with status 200 and store a record whose platform is the empty string. *)
Lemma C1_missing_field_accepted :
  missing_field "platform" body_without_platform /\
  "platform" ∈ required_fields /\
  Sqlite.handlePostLocation [] body_without_platform
    (response StatusOK SuccessJSON)
    [Sqlite.mkLocation "D1" "" 1%float 2%float sample_time ""] /\
  ~ rejected_unchanged Sqlite.handlePostLocation body_without_platform /\
  Mongo.handlePostLocation sample_UnmarshalTime [] body_without_platform sample_now
    (response StatusOK SuccessJSON)
    [Mongo.mkLocation "D1" "" 1%float 2%float sample_time ""
       (Mongo.bson_time sample_now)] /\
  ~ rejected_unchanged
      (fun db b => Mongo.handlePostLocation sample_UnmarshalTime db b sample_now)
      body_without_platform.
Proof.
  assert (Hs : Sqlite.handlePostLocation [] body_without_platform
                 (response StatusOK SuccessJSON)
                 [Sqlite.mkLocation "D1" "" 1%float 2%float sample_time ""]).
  { apply (Sqlite.post_success [] body_without_platform
             (Sqlite.mkLocation "D1" "" 1%float 2%float sample_time "")).
    reflexivity. }
  assert (Hm : Mongo.handlePostLocation sample_UnmarshalTime [] body_without_platform
                 sample_now (response StatusOK SuccessJSON)
                 [Mongo.mkLocation "D1" "" 1%float 2%float sample_time ""
                    (Mongo.bson_time sample_now)]).
  { apply (Mongo.post_success sample_UnmarshalTime [] body_without_platform sample_now
             (Mongo.mkLocation "D1" "" 1%float 2%float sample_time "" Mongo.zeroTime)).
    reflexivity. }
  split; [|split; [|split; [|split; [|split]]]].
  - eexists. split; [reflexivity|]. intros k v Hin.
    repeat (apply elem_of_cons in Hin as [[= -> ->]|Hin]); [done..|].
    by apply not_elem_of_nil in Hin.
  - set_solver.
  - exact Hs.
  - intros H. destruct (H _ _ _ Hs) as [Hc _]. discriminate Hc.
  - exact Hm.
  - intros H. destruct (H _ _ _ Hm) as [Hc _]. discriminate Hc.
Qed.

(** A [null] member is not refused either: it leaves the field at its zero
    value. *)
Example null_platform_accepted :
  Sqlite.ShouldBindJSON body_null_platform =
    Ok (Sqlite.mkLocation "D1" "" 1%float 2%float sample_time "") /\
  Mongo.ShouldBindJSON sample_UnmarshalTime body_null_platform =
    Ok (Mongo.mkLocation "D1" "" 1%float 2%float sample_time "" Mongo.zeroTime).
Proof. split; reflexivity. Qed.

(** ** Listing locations *)

Lemma Sqlite_select_all (db : list Sqlite.Location) : Sqlite.select [] db = db.
Proof.
  unfold Sqlite.select. induction db as [|r db IH]; [done|].
  rewrite filter_cons_True by constructor. by rewrite IH.
Qed.

(** Without a deployment the relational variant sends no [WHERE] clause at
    all, whatever the platform asked for. *)
Lemma Sqlite_platform_alone_ignored (platform : string) :
  Sqlite.locations_query "" platform = [].
Proof. reflexivity. Qed.

Lemma Sqlite_locations_inv (db : list Sqlite.Location) (deployment platform : string)
    (resp : Response Sqlite.Location) (db' : list Sqlite.Location) :
  Sqlite.handleGetLocations db deployment platform resp db' ->
  db' = db /\
  ((exists msg, resp = response StatusInternalServerError (ErrorJSON (DriverError msg))) \/
   resp = response StatusOK
            (LocationsJSON
               (Sqlite.select (Sqlite.locations_query deployment platform) db))).
Proof. intros H. inversion H; subst; eauto. Qed.

(** C2, on the relational variant: four rows inserted with the timestamps
    2024-01-02, 2024-01-01, 2024-01-01 and 2023-12-31 are listed in that
    order, with no filter and with the deployment filter [D1]; neither
    listing is non-decreasing by timestamp. *)
Theorem C2_sqlite_lists_in_insertion_order :
  (forall resp db',
     Sqlite.handleGetLocations sqlite_db "" "" resp db' -> code resp = StatusOK ->
     content resp = LocationsJSON sqlite_db) /\
  Sqlite.handleGetLocations sqlite_db "" ""
    (response StatusOK (LocationsJSON sqlite_db)) sqlite_db /\
  ~ Sorted (by_key Sqlite.Timestamp) sqlite_db /\
  (forall resp db',
     Sqlite.handleGetLocations sqlite_db "D1" "" resp db' -> code resp = StatusOK ->
     content resp =
       LocationsJSON [sqlite_P1_late; sqlite_P2_early; sqlite_P1_early]) /\
  ~ Sorted (by_key Sqlite.Timestamp) [sqlite_P1_late; sqlite_P2_early; sqlite_P1_early].
Proof.
  split; [|split; [|split; [|split]]].
  - intros resp db' H Hc.
    apply Sqlite_locations_inv in H as [_ [[msg ->]| ->]]; [discriminate Hc|done].
  - apply (Sqlite.locations_ok sqlite_db "" "").
  - intros H. inversion H as [|? ? _ Hd]; subst.
    inversion Hd as [|? ? Hle]; subst. vm_compute in Hle. done.
  - intros resp db' H Hc.
    apply Sqlite_locations_inv in H as [_ [[msg ->]| ->]]; [discriminate Hc|done].
  - intros H. inversion H as [|? ? _ Hd]; subst.
    inversion Hd as [|? ? Hle]; subst. vm_compute in Hle. done.
Qed.

(** C3, on the relational variant: asked for the platform [P1] alone, the
    listing holds every row of the table, among them a row of the platform
    [P2] and a row of [P9]. *)
Theorem C3_sqlite_platform_filter_alone :
  (forall resp db',
     Sqlite.handleGetLocations sqlite_db "" "P1" resp db' -> code resp = StatusOK ->
     content resp = LocationsJSON sqlite_db) /\
  Sqlite.handleGetLocations sqlite_db "" "P1"
    (response StatusOK (LocationsJSON sqlite_db)) sqlite_db /\
  sqlite_P2_early ∈ sqlite_db /\ Sqlite.Platform sqlite_P2_early = "P2" /\
  sqlite_other ∈ sqlite_db /\ Sqlite.Platform sqlite_other = "P9".
Proof.
  split; [|split; [|split; [|split; [|split]]]].
  - intros resp db' H Hc.
    apply Sqlite_locations_inv in H as [_ [[msg ->]| ->]]; [discriminate Hc|done].
  - apply (Sqlite.locations_ok sqlite_db "" "P1").
  - set_solver.
  - done.
  - set_solver.
  - done.
Qed.

(** With a deployment the relational variant filters as asked. *)
Lemma Sqlite_locations_with_deployment (db : list Sqlite.Location)
    (deployment platform : string) (l : Sqlite.Location) :
  deployment <> "" ->
  l ∈ Sqlite.select (Sqlite.locations_query deployment platform) db <->
  l ∈ db /\ Sqlite.Deployment l = deployment /\
  (platform <> "" -> Sqlite.Platform l = platform).
Proof.
  intros Hd. unfold Sqlite.select, Sqlite.locations_query.
  rewrite list_elem_of_filter, bool_decide_eq_true_2 by done.
  unfold Sqlite.satisfies. case_bool_decide as Hp.
  - rewrite !Forall_cons, Forall_nil. cbn. naive_solver.
  - rewrite !Forall_cons, Forall_nil. cbn. naive_solver.
Qed.

Lemma Mongo_field_deployment (l : Mongo.Location) :
  Mongo.field "deployment" l = Some (Mongo.Deployment l).
Proof. reflexivity. Qed.

Lemma Mongo_field_platform (l : Mongo.Location) :
  Mongo.field "platform" l = Some (Mongo.Platform l).
Proof. reflexivity. Qed.

Lemma Mongo_matches_locations_filter (deployment platform : string) (l : Mongo.Location) :
  Mongo.matches (Mongo.locations_filter deployment platform) l <->
  (deployment <> "" -> Mongo.Deployment l = deployment) /\
  (platform <> "" -> Mongo.Platform l = platform).
Proof.
  unfold Mongo.matches, Mongo.locations_filter.
  pose proof (map_Forall_empty (fun k v => Mongo.field k l = Some v)
                (M := gmap string)) as He.
  do 2 case_bool_decide.
  - rewrite map_Forall_insert by (by rewrite lookup_insert_ne).
    rewrite map_Forall_insert by done.
    rewrite Mongo_field_deployment, Mongo_field_platform. naive_solver.
  - rewrite map_Forall_insert by done.
    rewrite Mongo_field_platform. naive_solver.
  - rewrite map_Forall_insert by done.
    rewrite Mongo_field_deployment. naive_solver.
  - naive_solver.
Qed.

Lemma Mongo_locations_inv (db : list Mongo.Location) (deployment platform : string)
    (resp : Response Mongo.Location) (db' : list Mongo.Location) :
  Mongo.handleGetLocations db deployment platform resp db' ->
  db' = db /\
  ((exists msg, resp = response StatusInternalServerError (ErrorJSON (DriverError msg))) \/
   exists locations,
     sorted_by Mongo.Timestamp
       (Mongo.find (Mongo.locations_filter deployment platform) db) locations /\
     resp = response StatusOK (LocationsJSON locations)).
Proof. intros H. inversion H; subst; eauto. Qed.

Lemma Mongo_listing_behaviour (db : list Mongo.Location) (deployment platform : string) :
  Mongo.handleGetLocations db deployment platform
    (response StatusOK (LocationsJSON (Mongo_listing db deployment platform))) db.
Proof. apply Mongo.locations_ok, sorted_by_merge_sort. Qed.



(** On the document-store variant the two filters are independent: a
    listing holds the stored records that carry the deployment asked for,
    when one is asked for, and the platform asked for, when one is. *)
Theorem Mongo_locations_filtered (db : list Mongo.Location) (deployment platform : string)
    (resp : Response Mongo.Location) (db' : list Mongo.Location)
    (locations : list Mongo.Location) :
  Mongo.handleGetLocations db deployment platform resp db' ->
  content resp = LocationsJSON locations ->
  forall l, l ∈ locations <->
    l ∈ db /\
    (deployment <> "" -> Mongo.Deployment l = deployment) /\
    (platform <> "" -> Mongo.Platform l = platform).
Proof.
  intros H Hc l. apply Mongo_locations_inv in H as [_ [[msg ->]|(ls & [Hp _] & ->)]].
  - discriminate Hc.
  - injection Hc as <-. rewrite Hp. unfold Mongo.find.
    rewrite list_elem_of_filter, Mongo_matches_locations_filter. tauto.
Qed.

Lemma Mongo_locations_filtered_witness :
  (mongo_other ∈ Mongo_listing mongo_db "" "P1" <->
   mongo_other ∈ mongo_db /\
   ("" <> "" -> Mongo.Deployment mongo_other = "") /\
   ("P1" <> "" -> Mongo.Platform mongo_other = "P1")) /\
  Mongo_listing mongo_db "" "P1" = [mongo_other; mongo_P1_late].
Proof.
  split; [|reflexivity].
  exact (Mongo_locations_filtered mongo_db "" "P1"
           (response StatusOK (LocationsJSON (Mongo_listing mongo_db "" "P1")))
           mongo_db (Mongo_listing mongo_db "" "P1")
           (Mongo_listing_behaviour mongo_db "" "P1") eq_refl mongo_other).
Defined.

(** ** The track export *)

Lemma kml_inv (db : list Sqlite.Location) (deployment : string)
    (resp : Response Sqlite.Location) (db' : list Sqlite.Location) :
  Sqlite.handleDownloadKML db deployment resp db' ->
  db' = db /\
  ((exists msg, resp = response StatusInternalServerError (ErrorJSON (DriverError msg))) \/
   exists rows groups,
     sorted_by Sqlite.Timestamp
       (Sqlite.select [(Sqlite.deployment_col, deployment)] db) rows /\
     groups ≡ₚ map_to_list (Sqlite.platformData rows) /\
     resp = response StatusOK
              (Text (Sqlite.kml_headers deployment) (Sqlite.kml_text groups))).
Proof. intros H. inversion H; subst; eauto 10. Qed.

(** The export answers when the query does. *)
Lemma run_handleDownloadKML_behaviour (db : list Sqlite.Location) (deployment : string) :
  Sqlite.handleDownloadKML db deployment
    (Sqlite.run_handleDownloadKML db deployment) db.
Proof.
  unfold Sqlite.run_handleDownloadKML.
  eapply Sqlite.kml_ok; [apply sorted_by_merge_sort|done].
Qed.




(** C5: when the export answers with status 200 there is a
    timestamp-ordered result [rows] of the query and an order of the
    platforms such that the placemark elements of the text are, platform
    after platform, the connected path through the points of the rows of
    that platform, in the order these rows have in [rows], followed by one
    waypoint for each of the same points in the same order.  Every
    platform of [rows] has its group, and only once. *)
Theorem C5_groups_keep_query_order (db : list Sqlite.Location) (deployment : string)
    (resp : Response Sqlite.Location) (db' : list Sqlite.Location) :
  Sqlite.handleDownloadKML db deployment resp db' ->
  code resp = StatusOK ->
  exists rows platforms,
    sorted_by Sqlite.Timestamp
      (Sqlite.select [(Sqlite.deployment_col, deployment)] db) rows /\
    NoDup platforms /\
    (forall p, p ∈ platforms <-> p ∈ Sqlite.Platform <$> rows) /\
    content resp =
      Text (Sqlite.kml_headers deployment)
        (Sqlite.kml_header +:+
         String.concat ""
           (Sqlite.element <$>
              (platforms ≫= fun p =>
                 let points :=
                   Sqlite.point_of <$> filter (fun r => Sqlite.Platform r = p) rows in
                 Sqlite.LineStringPlacemark p points ::
                 (Sqlite.PointPlacemark <$> points))) +:+
         Sqlite.kml_footer).
Proof.
  intros H Hc.
  apply kml_inv in H as [_ [[msg ->]|(rows & groups & Hs & Hg & ->)]];
    [discriminate Hc|].
  exists rows, (groups.*1). split; [exact Hs|]. split; [|split].
  - rewrite Hg. apply NoDup_fst_map_to_list.
  - intros p. rewrite Hg.
    rewrite <- (elem_of_list_to_set (C := gset string) p (Sqlite.Platform <$> rows)).
    rewrite <- SqliteFacts.platformData_dom, elem_of_dom, list_elem_of_fmap.
    split.
    + intros ([p' pts] & -> & Hin). apply elem_of_map_to_list in Hin. eauto.
    + intros [pts Hin]. exists (p, pts). by rewrite elem_of_map_to_list.
  - cbn. rewrite SqliteFacts.kml_text_elements.
    assert (Hall : Forall (fun g => g ∈ map_to_list (Sqlite.platformData rows)) groups).
    { apply Forall_forall. intros g Hin. by rewrite <- Hg. }
    rewrite (SqliteFacts.placemarks_by_platform rows groups Hall). done.
Qed.

(** C5 on the four sample rows: the path of [P1] goes through its early
    point and then through its late one, as the rows do. *)
Lemma C5_groups_keep_query_order_witness :
  Sqlite.handleDownloadKML sqlite_db "D1"
    (Sqlite.run_handleDownloadKML sqlite_db "D1") sqlite_db /\
  exists rows platforms,
    sorted_by Sqlite.Timestamp
      (Sqlite.select [(Sqlite.deployment_col, "D1")] sqlite_db) rows /\
    NoDup platforms /\
    (forall p, p ∈ platforms <-> p ∈ Sqlite.Platform <$> rows) /\
    content (Sqlite.run_handleDownloadKML sqlite_db "D1") =
      Text (Sqlite.kml_headers "D1")
        (Sqlite.kml_header +:+
         String.concat ""
           (Sqlite.element <$>
              (platforms ≫= fun p =>
                 let points :=
                   Sqlite.point_of <$> filter (fun r => Sqlite.Platform r = p) rows in
                 Sqlite.LineStringPlacemark p points ::
                 (Sqlite.PointPlacemark <$> points))) +:+
         Sqlite.kml_footer).
Proof.
  split; [apply run_handleDownloadKML_behaviour|].
  exact (C5_groups_keep_query_order sqlite_db "D1"
           (Sqlite.run_handleDownloadKML sqlite_db "D1") sqlite_db
           (run_handleDownloadKML_behaviour sqlite_db "D1") eq_refl).
Defined.

Example export_of_samples :
  Sqlite.placemarks
    (map_to_list (Sqlite.platformData
       (Sqlite.order_by_timestamp
          (Sqlite.select [(Sqlite.deployment_col, "D1")] sqlite_db)))) =
  [ Sqlite.LineStringPlacemark "P1"
      [Sqlite.point_of sqlite_P1_early; Sqlite.point_of sqlite_P1_late];
    Sqlite.PointPlacemark (Sqlite.point_of sqlite_P1_early);
    Sqlite.PointPlacemark (Sqlite.point_of sqlite_P1_late);
    Sqlite.LineStringPlacemark "P2" [Sqlite.point_of sqlite_P2_early];
    Sqlite.PointPlacemark (Sqlite.point_of sqlite_P2_early) ].
Proof. vm_compute. reflexivity. Qed.

(** ** Platforms of a deployment, and what a read answers *)



Lemma Mongo_matches_deployment (deployment : string) (l : Mongo.Location) :
  Mongo.matches {["deployment" := deployment]} l <-> Mongo.Deployment l = deployment.
Proof.
  unfold Mongo.matches. rewrite map_Forall_singleton, Mongo_field_deployment.
  naive_solver.
Qed.


Lemma Mongo_find_all (db : list Mongo.Location) : Mongo.find ∅ db = db.
Proof.
  unfold Mongo.find. induction db as [|r db IH]; [done|].
  rewrite filter_cons_True by apply map_Forall_empty. by rewrite IH.
Qed.

Lemma Sqlite_platforms_inv (db : list Sqlite.Location) (deployment : string)
    (resp : Response Sqlite.Location) (db' : list Sqlite.Location) :
  Sqlite.handleGetPlatforms db deployment resp db' ->
  db' = db /\
  ((exists msg, resp = response StatusInternalServerError (ErrorJSON (DriverError msg))) \/
   exists ps,
     distinct (Sqlite.Platform <$>
                 Sqlite.select [(Sqlite.deployment_col, deployment)] db) ps /\
     resp = response StatusOK (StringsJSON ps)).
Proof. intros H. inversion H; subst; eauto. Qed.

Lemma Sqlite_deployments_inv (db : list Sqlite.Location)
    (resp : Response Sqlite.Location) (db' : list Sqlite.Location) :
  Sqlite.handleGetDeployments db resp db' ->
  db' = db /\
  ((exists msg, resp = response StatusInternalServerError (ErrorJSON (DriverError msg))) \/
   exists ds,
     distinct (Sqlite.Deployment <$> db) ds /\
     resp = response StatusOK (StringsJSON ds)).
Proof. intros H. inversion H; subst; eauto. Qed.

Lemma Mongo_platforms_inv (db : list Mongo.Location) (deployment : string)
    (resp : Response Mongo.Location) (db' : list Mongo.Location) :
  Mongo.handleGetPlatforms db deployment resp db' ->
  db' = db /\
  ((exists msg, resp = response StatusInternalServerError (ErrorJSON (DriverError msg))) \/
   exists ps,
     distinct (Mongo.Platform <$> Mongo.find {["deployment" := deployment]} db) ps /\
     resp = response StatusOK (StringsJSON ps)).
Proof. intros H. inversion H; subst; eauto. Qed.

Lemma Mongo_deployments_inv (db : list Mongo.Location)
    (resp : Response Mongo.Location) (db' : list Mongo.Location) :
  Mongo.handleGetDeployments db resp db' ->
  db' = db /\
  ((exists msg, resp = response StatusInternalServerError (ErrorJSON (DriverError msg))) \/
   exists ds,
     distinct (Mongo.Deployment <$> db) ds /\
     resp = response StatusOK (StringsJSON ds)).
Proof.
  intros H. inversion H as [|ds Hd]; subst; [eauto|].
  rewrite Mongo_find_all in Hd. eauto.
Qed.

(** A request that only reads is answered with status 200, or with status
    500 carrying the message of a failed driver call; and it leaves the
    store as it was. *)
Lemma Sqlite_read_answers (db : list Sqlite.Location) (req : Sqlite_request)
    (resp : Response Sqlite.Location) (db' : list Sqlite.Location) :
  Sqlite_read_only req = true ->
  Sqlite_serve db req resp db' ->
  db' = db /\ ok_or_store_failure resp.
Proof.
  unfold ok_or_store_failure.
  destruct req as [body|d p| |d|d]; [done|..]; intros _ H; cbn in H.
  - apply Sqlite_locations_inv in H as [-> [[msg ->]| ->]]; eauto.
  - apply Sqlite_deployments_inv in H as [-> [[msg ->]|(ds & _ & ->)]]; eauto.
  - apply Sqlite_platforms_inv in H as [-> [[msg ->]|(ps & _ & ->)]]; eauto.
  - apply kml_inv in H as [-> [[msg ->]|(rows & groups & _ & _ & ->)]]; eauto.
Qed.

Lemma Mongo_read_answers (UnmarshalTime : string -> option Z)
    (db : list Mongo.Location) (req : Mongo_request)
    (resp : Response Mongo.Location) (db' : list Mongo.Location) :
  Mongo_read_only req = true ->
  Mongo_serve UnmarshalTime db req resp db' ->
  db' = db /\ ok_or_store_failure resp.
Proof.
  unfold ok_or_store_failure.
  destruct req as [body now|d p| |d]; [done|..]; intros _ H; cbn in H.
  - apply Mongo_locations_inv in H as [-> [[msg ->]|(ls & _ & ->)]]; eauto.
  - apply Mongo_deployments_inv in H as [-> [[msg ->]|(ds & _ & ->)]]; eauto.
  - apply Mongo_platforms_inv in H as [-> [[msg ->]|(ps & _ & ->)]]; eauto.
Qed.

(** Each read answers with status 200 when its driver calls return. *)
Lemma Sqlite_read_succeeds (db : list Sqlite.Location) (req : Sqlite_request) :
  Sqlite_read_only req = true ->
  exists resp, Sqlite_serve db req resp db /\ code resp = StatusOK.
Proof.
  destruct req as [body|d p| |d|d]; [done|..]; intros _; cbn.
  - eexists. split; [apply Sqlite.locations_ok|done].
  - eexists. split; [apply Sqlite.deployments_ok, distinct_remove_dups|done].
  - eexists. split; [apply Sqlite.platforms_ok, distinct_remove_dups|done].
  - eexists. split; [apply run_handleDownloadKML_behaviour|done].
Qed.

Lemma Mongo_read_succeeds (UnmarshalTime : string -> option Z)
    (db : list Mongo.Location) (req : Mongo_request) :
  Mongo_read_only req = true ->
  exists resp, Mongo_serve UnmarshalTime db req resp db /\ code resp = StatusOK.
Proof.
  destruct req as [body now|d p| |d]; [done|..]; intros _; cbn.
  - eexists. split; [apply Mongo_listing_behaviour|done].
  - eexists. split; [apply Mongo.deployments_ok, distinct_remove_dups|done].
  - eexists. split; [apply Mongo.platforms_ok, distinct_remove_dups|done].
Qed.




(** ** Submitting, then listing *)


Lemma Mongo_post_inv (UnmarshalTime : string -> option Z) (db : list Mongo.Location)
    (body : option json) (now : Z)
    (resp : Response Mongo.Location) (db' : list Mongo.Location) :
  Mongo.handlePostLocation UnmarshalTime db body now resp db' ->
  code resp = StatusOK ->
  exists submitted,
    Mongo.ShouldBindJSON UnmarshalTime body = Ok submitted /\
    resp = response StatusOK SuccessJSON /\
    db' = db ++ [Mongo.set_CreatedAt (Mongo.bson_time now) submitted].
Proof. intros H Hc. inversion H; subst; try discriminate Hc. eauto. Qed.





Lemma mongo_sample_posts :
  Mongo.ShouldBindJSON sample_UnmarshalTime sample_body = Ok mongo_submitted /\
  Mongo.handlePostLocation sample_UnmarshalTime [] sample_body sample_now
    (response StatusOK SuccessJSON) mongo_once /\
  Mongo.handlePostLocation sample_UnmarshalTime mongo_once sample_body
    (sample_now + 1000000000) (response StatusOK SuccessJSON) mongo_twice.
Proof.
  split; [reflexivity|]. split.
  - by apply (Mongo.post_success sample_UnmarshalTime [] sample_body sample_now
                mongo_submitted).
  - by apply (Mongo.post_success sample_UnmarshalTime mongo_once sample_body
                (sample_now + 1000000000) mongo_submitted).
Qed.



(** C8: a submission that the document-store variant answers with status
    200 was bound to a record, and the store gained one record at its end:
    the bound one with its creation time replaced by the time of the server
    at the insertion, as a BSON datetime keeps it, whatever [created_at]
    the body carried.  The six other fields are stored as bound. *)
Theorem C8_created_at_is_the_servers (UnmarshalTime : string -> option Z)
    (db : list Mongo.Location) (body : option json) (now : Z)
    (resp : Response Mongo.Location) (db' : list Mongo.Location) :
  Mongo.handlePostLocation UnmarshalTime db body now resp db' ->
  code resp = StatusOK ->
  exists submitted stored,
    Mongo.ShouldBindJSON UnmarshalTime body = Ok submitted /\
    db' = db ++ [stored] /\
    Mongo.CreatedAt stored = Mongo.bson_time now /\
    Mongo.Deployment stored = Mongo.Deployment submitted /\
    Mongo.Platform stored = Mongo.Platform submitted /\
    Mongo.Latitude stored = Mongo.Latitude submitted /\
    Mongo.Longitude stored = Mongo.Longitude submitted /\
    Mongo.Timestamp stored = Mongo.Timestamp submitted /\
    Mongo.Source stored = Mongo.Source submitted.
Proof.
  intros H Hc. apply Mongo_post_inv in H as (submitted & Hb & _ & ->); [|done].
  exists submitted, (Mongo.set_CreatedAt (Mongo.bson_time now) submitted).
  repeat split; done.
Qed.

Lemma mongo_backdated_post :
  Mongo.ShouldBindJSON sample_UnmarshalTime body_with_created_at = Ok mongo_backdated /\
  Mongo.handlePostLocation sample_UnmarshalTime mongo_db body_with_created_at sample_now
    (response StatusOK SuccessJSON)
    (mongo_db ++ [Mongo.set_CreatedAt (Mongo.bson_time sample_now) mongo_backdated]).
Proof.
  split; [reflexivity|].
  by apply (Mongo.post_success sample_UnmarshalTime mongo_db body_with_created_at
              sample_now mongo_backdated).
Qed.

(** C8 on that submission: what is stored is the time of the server, to the
    millisecond. *)
Lemma C8_created_at_is_the_servers_witness :
  Mongo.handlePostLocation sample_UnmarshalTime mongo_db body_with_created_at sample_now
    (response StatusOK SuccessJSON)
    (mongo_db ++ [Mongo.set_CreatedAt (Mongo.bson_time sample_now) mongo_backdated]) /\
  Mongo.bson_time sample_now = 1717243200123000000%Z /\
  exists submitted stored,
    Mongo.ShouldBindJSON sample_UnmarshalTime body_with_created_at = Ok submitted /\
    mongo_db ++ [Mongo.set_CreatedAt (Mongo.bson_time sample_now) mongo_backdated] =
      mongo_db ++ [stored] /\
    Mongo.CreatedAt stored = Mongo.bson_time sample_now /\
    Mongo.Deployment stored = Mongo.Deployment submitted /\
    Mongo.Platform stored = Mongo.Platform submitted /\
    Mongo.Latitude stored = Mongo.Latitude submitted /\
    Mongo.Longitude stored = Mongo.Longitude submitted /\
    Mongo.Timestamp stored = Mongo.Timestamp submitted /\
    Mongo.Source stored = Mongo.Source submitted.
Proof.
  split; [apply mongo_backdated_post|]. split; [reflexivity|].
  exact (C8_created_at_is_the_servers sample_UnmarshalTime mongo_db
           body_with_created_at sample_now (response StatusOK SuccessJSON)
           (mongo_db ++ [Mongo.set_CreatedAt (Mongo.bson_time sample_now) mongo_backdated])
           (proj2 mongo_backdated_post) eq_refl).
Defined.

(** ** The store only grows, and reads do not touch it *)

Lemma Sqlite_serve_appends (db : list Sqlite.Location) (req : Sqlite_request)
    (resp : Response Sqlite.Location) (db' : list Sqlite.Location) :
  Sqlite_serve db req resp db' -> exists new, db' = db ++ new.
Proof.
  destruct (Sqlite_read_only req) eqn:Hr.
  - intros H. destruct (Sqlite_read_answers db req resp db' Hr H) as [-> _].
    exists []. by rewrite app_nil_r.
  - destruct req; try discriminate Hr. cbn. intros H.
    inversion H; subst; eauto; exists []; by rewrite app_nil_r.
Qed.

Lemma Mongo_serve_appends (UnmarshalTime : string -> option Z)
    (db : list Mongo.Location) (req : Mongo_request)
    (resp : Response Mongo.Location) (db' : list Mongo.Location) :
  Mongo_serve UnmarshalTime db req resp db' -> exists new, db' = db ++ new.
Proof.
  destruct (Mongo_read_only req) eqn:Hr.
  - intros H.
    destruct (Mongo_read_answers UnmarshalTime db req resp db' Hr H) as [-> _].
    exists []. by rewrite app_nil_r.
  - destruct req; try discriminate Hr. cbn. intros H.
    inversion H; subst; eauto; exists []; by rewrite app_nil_r.
Qed.

Lemma Sqlite_run_appends (db : list Sqlite.Location)
    (trace : list (Sqlite_request * Response Sqlite.Location))
    (db' : list Sqlite.Location) :
  Sqlite_run db trace db' -> exists new, db' = db ++ new.
Proof.
  induction 1 as [db|db req resp db1 trace db2 Hs _ [new2 ->]].
  - exists []. by rewrite app_nil_r.
  - apply Sqlite_serve_appends in Hs as [new1 ->].
    exists (new1 ++ new2). by rewrite app_assoc.
Qed.

Lemma Mongo_run_appends (UnmarshalTime : string -> option Z) (db : list Mongo.Location)
    (trace : list (Mongo_request * Response Mongo.Location))
    (db' : list Mongo.Location) :
  Mongo_run UnmarshalTime db trace db' -> exists new, db' = db ++ new.
Proof.
  induction 1 as [db|db req resp db1 trace db2 Hs _ [new2 ->]].
  - exists []. by rewrite app_nil_r.
  - apply Mongo_serve_appends in Hs as [new1 ->].
    exists (new1 ++ new2). by rewrite app_assoc.
Qed.

Lemma groups_keys (rows recs : list Sqlite.Location)
    (groups : list (string * list Sqlite.point)) :
  rows ≡ₚ recs ->
  groups ≡ₚ map_to_list (Sqlite.platformData rows) ->
  NoDup groups.*1 /\
  forall p, p ∈ groups.*1 <-> p ∈ Sqlite.Platform <$> recs.
Proof.
  intros Hr Hg. split.
  - rewrite Hg. apply NoDup_fst_map_to_list.
  - intros p. rewrite Hg, <- Hr.
    rewrite <- (elem_of_list_to_set (C := gset string) p (Sqlite.Platform <$> rows)).
    rewrite <- SqliteFacts.platformData_dom, elem_of_dom, list_elem_of_fmap.
    split.
    + intros ([p' pts] & -> & Hin). apply elem_of_map_to_list in Hin. eauto.
    + intros [pts Hin]. exists (p, pts). by rewrite elem_of_map_to_list.
Qed.

(** Two track exports of the same store. *)
Lemma kml_same_tracks (db : list Sqlite.Location) (deployment : string)
    (r1 r2 : Response Sqlite.Location) (db1 db2 : list Sqlite.Location) :
  Sqlite.handleDownloadKML db deployment r1 db1 ->
  Sqlite.handleDownloadKML db deployment r2 db2 ->
  code r1 = StatusOK -> code r2 = StatusOK ->
  same_results r1 r2 /\ same_tracks r1 r2.
Proof.
  intros H1 H2 C1 C2.
  apply kml_inv in H1 as [_ [[msg ->]|(rows1 & g1 & [P1 _] & G1 & ->)]];
    [discriminate C1|].
  apply kml_inv in H2 as [_ [[msg ->]|(rows2 & g2 & [P2 _] & G2 & ->)]];
    [discriminate C2|].
  split; [done|].
  exists (Sqlite.kml_headers deployment), g1, g2. split; [done|]. split; [done|].
  destruct (groups_keys rows1 _ g1 P1 G1) as [N1 K1].
  destruct (groups_keys rows2 _ g2 P2 G2) as [N2 K2].
  split.
  - apply NoDup_Permutation; [done..|]. intros p. by rewrite K1, K2.
  - rewrite !SqliteFacts.filter_Point_placemarks.
    rewrite (SqliteFacts.groups_points rows1 _ g1 P1 G1).
    by rewrite (SqliteFacts.groups_points rows2 _ g2 P2 G2).
Qed.

Lemma Sqlite_reads_repeat (db : list Sqlite.Location) (req : Sqlite_request)
    (r1 r2 : Response Sqlite.Location) (db1 db2 : list Sqlite.Location) :
  Sqlite_read_only req = true ->
  Sqlite_serve db req r1 db1 -> Sqlite_serve db req r2 db2 ->
  code r1 = StatusOK -> code r2 = StatusOK ->
  same_results r1 r2 /\
  match req with SqliteDownloadKML _ => same_tracks r1 r2 | _ => True end.
Proof.
  destruct req as [body|d p| |d|d]; [done|..]; intros _ H1 H2 C1 C2; cbn in H1, H2.
  - apply Sqlite_locations_inv in H1 as [_ [[msg ->]| ->]]; [discriminate C1|].
    apply Sqlite_locations_inv in H2 as [_ [[msg ->]| ->]]; [discriminate C2|].
    split; [|done]. split; [done|]. cbn. reflexivity.
  - apply Sqlite_deployments_inv in H1 as [_ [[msg ->]|(ds1 & D1 & ->)]];
      [discriminate C1|].
    apply Sqlite_deployments_inv in H2 as [_ [[msg ->]|(ds2 & D2 & ->)]];
      [discriminate C2|].
    split; [|done]. split; [done|]. cbn. by eapply distinct_perm.
  - apply Sqlite_platforms_inv in H1 as [_ [[msg ->]|(ps1 & D1 & ->)]];
      [discriminate C1|].
    apply Sqlite_platforms_inv in H2 as [_ [[msg ->]|(ps2 & D2 & ->)]];
      [discriminate C2|].
    split; [|done]. split; [done|]. cbn. by eapply distinct_perm.
  - by eapply kml_same_tracks.
Qed.

Lemma Mongo_reads_repeat (UnmarshalTime : string -> option Z) (db : list Mongo.Location)
    (req : Mongo_request)
    (r1 r2 : Response Mongo.Location) (db1 db2 : list Mongo.Location) :
  Mongo_read_only req = true ->
  Mongo_serve UnmarshalTime db req r1 db1 -> Mongo_serve UnmarshalTime db req r2 db2 ->
  code r1 = StatusOK -> code r2 = StatusOK ->
  same_results r1 r2.
Proof.
  destruct req as [body now|d p| |d]; [done|..]; intros _ H1 H2 C1 C2; cbn in H1, H2.
  - apply Mongo_locations_inv in H1 as [_ [[msg ->]|(l1 & S1 & ->)]];
      [discriminate C1|].
    apply Mongo_locations_inv in H2 as [_ [[msg ->]|(l2 & S2 & ->)]];
      [discriminate C2|].
    split; [done|]. cbn. by eapply sorted_by_perm.
  - apply Mongo_deployments_inv in H1 as [_ [[msg ->]|(ds1 & D1 & ->)]];
      [discriminate C1|].
    apply Mongo_deployments_inv in H2 as [_ [[msg ->]|(ds2 & D2 & ->)]];
      [discriminate C2|].
    split; [done|]. cbn. by eapply distinct_perm.
  - apply Mongo_platforms_inv in H1 as [_ [[msg ->]|(ps1 & D1 & ->)]];
      [discriminate C1|].
    apply Mongo_platforms_inv in H2 as [_ [[msg ->]|(ps2 & D2 & ->)]];
      [discriminate C2|].
    split; [done|]. cbn. by eapply distinct_perm.
Qed.

(** C9: in both variants, whatever requests a server has served, the store
    is the store it started from followed by the records written since:
    every record is still where it was written, as it was written.  A
    request that only reads (list locations, list deployments, list
    platforms, track export) leaves the store as it was; served once more
    on the store it left, it answers as it could have answered the first
    time, and two answers with status 200 carry the same records, the same
    strings, the same paths and waypoints, up to their order. *)
Theorem C9_append_only_and_pure_reads (UnmarshalTime : string -> option Z) :
  (forall db trace db' i r,
     Sqlite_run db trace db' -> db !! i = Some r -> db' !! i = Some r) /\
  (forall db trace db' i r,
     Mongo_run UnmarshalTime db trace db' -> db !! i = Some r -> db' !! i = Some r) /\
  (forall db req r1 db1 r2 db2,
     Sqlite_read_only req = true ->
     Sqlite_serve db req r1 db1 -> Sqlite_serve db1 req r2 db2 ->
     db1 = db /\ db2 = db /\ Sqlite_serve db req r2 db /\
     (code r1 = StatusOK -> code r2 = StatusOK ->
      same_results r1 r2 /\
      match req with SqliteDownloadKML _ => same_tracks r1 r2 | _ => True end)) /\
  (forall db req r1 db1 r2 db2,
     Mongo_read_only req = true ->
     Mongo_serve UnmarshalTime db req r1 db1 ->
     Mongo_serve UnmarshalTime db1 req r2 db2 ->
     db1 = db /\ db2 = db /\ Mongo_serve UnmarshalTime db req r2 db /\
     (code r1 = StatusOK -> code r2 = StatusOK -> same_results r1 r2)).
Proof.
  split; [|split; [|split]].
  - intros db trace db' i r Hrun Hi.
    apply Sqlite_run_appends in Hrun as [new ->]. by apply lookup_app_l_Some.
  - intros db trace db' i r Hrun Hi.
    apply Mongo_run_appends in Hrun as [new ->]. by apply lookup_app_l_Some.
  - intros db req r1 db1 r2 db2 Hr H1 H2.
    destruct (Sqlite_read_answers db req r1 db1 Hr H1) as [-> _].
    destruct (Sqlite_read_answers db req r2 db2 Hr H2) as [-> _].
    split; [done|]. split; [done|]. split; [done|]. intros C1 C2.
    exact (Sqlite_reads_repeat db req r1 r2 db db Hr H1 H2 C1 C2).
  - intros db req r1 db1 r2 db2 Hr H1 H2.
    destruct (Mongo_read_answers UnmarshalTime db req r1 db1 Hr H1) as [-> _].
    destruct (Mongo_read_answers UnmarshalTime db req r2 db2 Hr H2) as [-> _].
    split; [done|]. split; [done|]. split; [done|]. intros C1 C2.
    exact (Mongo_reads_repeat UnmarshalTime db req r1 r2 db db Hr H1 H2 C1 C2).
Qed.

(** C9 on a run of the relational variant: the example submission, then a
    track export, on the four sample rows. *)
Lemma C9_append_only_and_pure_reads_witness :
  Sqlite_run sqlite_db
    [ (SqlitePostLocation sample_body, response StatusOK SuccessJSON);
      (SqliteDownloadKML "D1",
       Sqlite.run_handleDownloadKML
         (sqlite_db ++ [Sqlite.mkLocation "D1" "P1" 1%float 2%float sample_time ""])
         "D1") ]
    (sqlite_db ++ [Sqlite.mkLocation "D1" "P1" 1%float 2%float sample_time ""]) /\
  (sqlite_db ++ [Sqlite.mkLocation "D1" "P1" 1%float 2%float sample_time ""]) !! 1%nat =
    Some sqlite_P2_early.
Proof.
  assert (Hrun : Sqlite_run sqlite_db
    [ (SqlitePostLocation sample_body, response StatusOK SuccessJSON);
      (SqliteDownloadKML "D1",
       Sqlite.run_handleDownloadKML
         (sqlite_db ++ [Sqlite.mkLocation "D1" "P1" 1%float 2%float sample_time ""])
         "D1") ]
    (sqlite_db ++ [Sqlite.mkLocation "D1" "P1" 1%float 2%float sample_time ""])).
  { eapply sqlite_run_cons.
    - by apply (Sqlite.post_success sqlite_db sample_body
                  (Sqlite.mkLocation "D1" "P1" 1%float 2%float sample_time "")).
    - eapply sqlite_run_cons; [|apply sqlite_run_nil].
      apply run_handleDownloadKML_behaviour. }
  split; [exact Hrun|].
  exact (proj1 (C9_append_only_and_pure_reads sample_UnmarshalTime)
           sqlite_db _ _ 1%nat sqlite_P2_early Hrun eq_refl).
Defined.

(** ** The text of the track export *)

(** The export of a deployment with a single record. *)
Lemma kml_single (db : list Sqlite.Location) (deployment : string) (r : Sqlite.Location)
    (resp : Response Sqlite.Location) (db' : list Sqlite.Location) :
  Sqlite.select [(Sqlite.deployment_col, deployment)] db = [r] ->
  Sqlite.handleDownloadKML db deployment resp db' ->
  code resp = StatusOK ->
  content resp =
    Text (Sqlite.kml_headers deployment)
      (Sqlite.kml_text [(Sqlite.Platform r, [Sqlite.point_of r])]).
Proof.
  intros Hsel H Hc.
  apply kml_inv in H as [_ [[msg ->]|(rows & groups & [Hp _] & Hg & ->)]];
    [discriminate Hc|].
  rewrite Hsel in Hp. apply Permutation_singleton_r in Hp as ->.
  change (Sqlite.platformData [r])
    with (<[Sqlite.Platform r := [Sqlite.point_of r]]> (∅ : gmap string (list Sqlite.point)))
    in Hg.
  rewrite insert_empty, map_to_list_singleton in Hg.
  apply Permutation_singleton_r in Hg as ->. done.
Qed.

(** C10, on the document name: whatever the deployment, the text of an
    export starts with the same header, in which the name of the document
    is [%s Track]: the deployment is not written into it.  The export of
    [D1] from a store that holds one record of [D1] names its document
    [%s Track], and [D1 Track] occurs nowhere in it; the deployment is in
    the file name of the Content-Disposition header only. *)
Theorem C10_document_name_keeps_its_verb :
  (forall db deployment resp db',
     Sqlite.handleDownloadKML db deployment resp db' -> code resp = StatusOK ->
     exists rest,
       content resp =
         Text (Sqlite.kml_headers deployment) (Sqlite.kml_header +:+ rest)) /\
  occurs "<name>%s Track</name>" Sqlite.kml_header = true /\
  (forall resp db',
     Sqlite.handleDownloadKML [sqlite_P1_late] "D1" resp db' -> code resp = StatusOK ->
     exists text,
       content resp =
         Text [ ("Content-Type", "application/vnd.google-earth.kml+xml");
                ("Content-Disposition", "attachment; filename=D1_track.kml") ] text /\
       occurs "<name>%s Track</name>" text = true /\
       occurs "D1 Track" text = false /\
       occurs "<name>P1 Track</name>" text = true).
Proof.
  split; [|split].
  - intros db deployment resp db' H Hc.
    apply kml_inv in H as [_ [[msg ->]|(rows & groups & _ & _ & ->)]];
      [discriminate Hc|].
    eexists. cbn. rewrite SqliteFacts.kml_text_elements. reflexivity.
  - vm_compute. reflexivity.
  - intros resp db' H Hc.
    rewrite (kml_single [sqlite_P1_late] "D1" sqlite_P1_late resp db' eq_refl H Hc).
    eexists. split; [reflexivity|]. repeat split; vm_compute; reflexivity.
Qed.


(** With plain names and timestamps the document is well-formed. *)
Example export_of_samples_well_formed :
  match content (Sqlite.run_handleDownloadKML sqlite_db "D1") with
  | Text _ text => Xml.well_formed text = true
  | _ => False
  end.
Proof. vm_compute. reflexivity. Qed.

(** ** The runs are behaviours

    Each handler answers every request: the run with every driver call
    returning is one of its behaviours. *)

Lemma Sqlite_run_handlePostLocation_behaviour (db : list Sqlite.Location)
    (body : option json) :
  Sqlite.handlePostLocation db body
    (Sqlite.run_handlePostLocation db body).1
    (Sqlite.run_handlePostLocation db body).2.
Proof.
  unfold Sqlite.run_handlePostLocation.
  destruct (Sqlite.ShouldBindJSON body) as [loc|e] eqn:Hb; cbn.
  - by apply Sqlite.post_success.
  - by apply Sqlite.post_bad_request.
Qed.

Lemma Sqlite_run_handleGetLocations_behaviour (db : list Sqlite.Location)
    (deployment platform : string) :
  Sqlite.handleGetLocations db deployment platform
    (Sqlite.run_handleGetLocations db deployment platform) db.
Proof. apply Sqlite.locations_ok. Qed.

Lemma Sqlite_run_handleGetDeployments_behaviour (db : list Sqlite.Location) :
  Sqlite.handleGetDeployments db (Sqlite.run_handleGetDeployments db) db.
Proof. apply Sqlite.deployments_ok, distinct_remove_dups. Qed.

Lemma Sqlite_run_handleGetPlatforms_behaviour (db : list Sqlite.Location)
    (deployment : string) :
  Sqlite.handleGetPlatforms db deployment
    (Sqlite.run_handleGetPlatforms db deployment) db.
Proof. apply Sqlite.platforms_ok, distinct_remove_dups. Qed.

Lemma Mongo_run_handlePostLocation_behaviour (UnmarshalTime : string -> option Z)
    (db : list Mongo.Location) (body : option json) (now : Z) :
  Mongo.handlePostLocation UnmarshalTime db body now
    (Mongo.run_handlePostLocation UnmarshalTime db body now).1
    (Mongo.run_handlePostLocation UnmarshalTime db body now).2.
Proof.
  unfold Mongo.run_handlePostLocation.
  destruct (Mongo.ShouldBindJSON UnmarshalTime body) as [loc|e] eqn:Hb; cbn.
  - by apply Mongo.post_success.
  - by apply Mongo.post_bad_request.
Qed.

Lemma Mongo_run_handleGetLocations_behaviour (db : list Mongo.Location)
    (deployment platform : string) :
  Mongo.handleGetLocations db deployment platform
    (Mongo.run_handleGetLocations db deployment platform) db.
Proof. apply Mongo.locations_ok, sorted_by_merge_sort. Qed.

Lemma Mongo_run_handleGetDeployments_behaviour (db : list Mongo.Location) :
  Mongo.handleGetDeployments db (Mongo.run_handleGetDeployments db) db.
Proof. apply Mongo.deployments_ok, distinct_remove_dups. Qed.

Lemma Mongo_run_handleGetPlatforms_behaviour (db : list Mongo.Location)
    (deployment : string) :
  Mongo.handleGetPlatforms db deployment
    (Mongo.run_handleGetPlatforms db deployment) db.
Proof. apply Mongo.platforms_ok, distinct_remove_dups. Qed.

(** The example of the specification, on the document-store variant:
    the submission is accepted; the listing of [D1] holds that record, the
    deployments are [D1], the platforms of [D1] are [P1]. *)
Example specification_example :
  Mongo.run_handlePostLocation sample_UnmarshalTime [] sample_body sample_now =
    (response StatusOK SuccessJSON, mongo_once) /\
  Mongo.run_handleGetLocations mongo_once "D1" "" =
    response StatusOK (LocationsJSON mongo_once) /\
  Mongo.run_handleGetDeployments mongo_once = response StatusOK (StringsJSON ["D1"]) /\
  Mongo.run_handleGetPlatforms mongo_once "D1" = response StatusOK (StringsJSON ["P1"]).
Proof. repeat split; vm_compute; reflexivity. Qed.

(** The same on the relational variant. *)
Example specification_example_relational :
  Sqlite.run_handlePostLocation [] sample_body =
    (response StatusOK SuccessJSON,
     [Sqlite.mkLocation "D1" "P1" 1%float 2%float sample_time ""]) /\
  Sqlite.run_handleGetLocations
    [Sqlite.mkLocation "D1" "P1" 1%float 2%float sample_time ""] "D1" "" =
    response StatusOK
      (LocationsJSON [Sqlite.mkLocation "D1" "P1" 1%float 2%float sample_time ""]) /\
  Sqlite.run_handleGetDeployments sqlite_db = response StatusOK (StringsJSON ["D1"; "D2"]) /\
  Sqlite.run_handleGetPlatforms sqlite_db "D1" =
    response StatusOK (StringsJSON ["P2"; "P1"]).
Proof. repeat split; vm_compute; reflexivity. Qed.

(** The listings of the two variants on the same four records, asked for
    the platform [P1] alone. *)
Example platform_alone_on_both :
  Sqlite.run_handleGetLocations sqlite_db "" "P1" =
    response StatusOK (LocationsJSON sqlite_db) /\
  Mongo.run_handleGetLocations mongo_db "" "P1" =
    response StatusOK (LocationsJSON [mongo_other; mongo_P1_late]).
Proof. split; vm_compute; reflexivity. Qed.

(** ** Listing deployments *)



(** ** The relational listing under a deployment filter *)

(** With a deployment filter the relational variant lists the stored
    records of that deployment and, when a platform is asked for too, of
    that platform. *)
Theorem Sqlite_locations_filtered_by_deployment (db : list Sqlite.Location)
    (deployment platform : string)
    (resp : Response Sqlite.Location) (db' : list Sqlite.Location)
    (locations : list Sqlite.Location) :
  deployment <> "" ->
  Sqlite.handleGetLocations db deployment platform resp db' ->
  content resp = LocationsJSON locations ->
  forall l, l ∈ locations <->
    l ∈ db /\ Sqlite.Deployment l = deployment /\
    (platform <> "" -> Sqlite.Platform l = platform).
Proof.
  intros Hd H Hc l.
  apply Sqlite_locations_inv in H as [_ [[msg ->]| ->]]; [discriminate Hc|].
  injection Hc as <-. by apply Sqlite_locations_with_deployment.
Qed.

Lemma Sqlite_locations_filtered_by_deployment_witness :
  "D1" <> "" /\
  Sqlite.run_handleGetLocations sqlite_db "D1" "P1" =
    response StatusOK (LocationsJSON [sqlite_P1_late; sqlite_P1_early]) /\
  (sqlite_P2_early ∈ [sqlite_P1_late; sqlite_P1_early] <->
   sqlite_P2_early ∈ sqlite_db /\ Sqlite.Deployment sqlite_P2_early = "D1" /\
   ("P1" <> "" -> Sqlite.Platform sqlite_P2_early = "P1")).
Proof.
  split; [done|]. split; [reflexivity|].
  exact (Sqlite_locations_filtered_by_deployment sqlite_db "D1" "P1"
           (Sqlite.run_handleGetLocations sqlite_db "D1" "P1") sqlite_db
           [sqlite_P1_late; sqlite_P1_early]
           ltac:(done) (Sqlite_run_handleGetLocations_behaviour sqlite_db "D1" "P1")
           eq_refl sqlite_P2_early).
Defined.

(** ** More on binding: members that are skipped, keys, composition *)

Section ObjectSteps.
Context {L : Type} (assign : string -> json -> L -> assigned L).





End ObjectSteps.






Lemma key_matches_same_fold (k k' name : string) :
  foldName k = foldName k' -> key_matches k name = key_matches k' name.
Proof. intros H. by rewrite !key_matches_fold, H. Qed.

Lemma Sqlite_assign_same_fold (k k' : string) (v : json) (l : Sqlite.Location) :
  foldName k = foldName k' -> Sqlite.assign k v l = Sqlite.assign k' v l.
Proof.
  intros H. unfold Sqlite.assign.
  by rewrite !(key_matches_same_fold k k' _ H).
Qed.

Lemma Mongo_assign_same_fold (UnmarshalTime : string -> option Z)
    (k k' : string) (v : json) (l : Mongo.Location) :
  foldName k = foldName k' ->
  Mongo.assign UnmarshalTime k v l = Mongo.assign UnmarshalTime k' v l.
Proof.
  intros H. unfold Mongo.assign.
  by rewrite !(key_matches_same_fold k k' _ H).
Qed.

Lemma object_same_members {L : Type} (assign : string -> json -> L -> assigned L)
    (ms ms' : list (string * json)) (l : L) (saved : option bind_error) :
  (forall k k' v l0, foldName k = foldName k' -> assign k v l0 = assign k' v l0) ->
  same_members ms ms' ->
  object assign ms l saved = object assign ms' l saved.
Proof.
  intros Hfold Hs. revert l saved.
  induction Hs as [|[k v] [k' v'] ms ms' [Hk Hv] _ IH]; intros l saved; [done|].
  cbn in Hk, Hv. subst v'. cbn. rewrite (Hfold k k' v l Hk).
  destruct (assign k' v l); [apply IH..|done].
Qed.

(** The keys of a body are read without regard to case: two objects whose
    members carry, one by one, the same values under keys that are equal
    under case folding bind to the same record, or fail with the same
    error. *)
Theorem keys_are_caseless (UnmarshalTime : string -> option Z)
    (ms ms' : list (string * json)) :
  same_members ms ms' ->
  Sqlite.ShouldBindJSON (Some (JObject ms)) = Sqlite.ShouldBindJSON (Some (JObject ms')) /\
  Mongo.ShouldBindJSON UnmarshalTime (Some (JObject ms)) =
  Mongo.ShouldBindJSON UnmarshalTime (Some (JObject ms')).
Proof.
  intros Hs. split.
  - unfold Sqlite.ShouldBindJSON. cbn [unmarshal].
    rewrite (object_same_members Sqlite.assign ms ms'); [done| |done].
    intros k k' v l0. apply Sqlite_assign_same_fold.
  - unfold Mongo.ShouldBindJSON. cbn [unmarshal].
    rewrite (object_same_members (Mongo.assign UnmarshalTime) ms ms'); [done| |done].
    intros k k' v l0. apply Mongo_assign_same_fold.
Qed.

Lemma sample_members_same : same_members sample_members_capitals sample_members.
Proof. repeat constructor. Qed.

Lemma keys_are_caseless_witness :
  same_members sample_members_capitals sample_members /\
  Sqlite.ShouldBindJSON (Some (JObject sample_members_capitals)) =
    Ok (Sqlite.mkLocation "D1" "P1" 1%float 2%float sample_time "").
Proof.
  split; [apply sample_members_same|].
  rewrite (proj1 (keys_are_caseless sample_UnmarshalTime
                    sample_members_capitals sample_members sample_members_same)).
  reflexivity.
Defined.










(** ** What the reads show of the store, across handlers *)

Lemma Sqlite_deployments_elem (db : list Sqlite.Location)
    (resp : Response Sqlite.Location) (db' : list Sqlite.Location) (ds : list string) :
  Sqlite.handleGetDeployments db resp db' -> content resp = StringsJSON ds ->
  NoDup ds /\ forall d, d ∈ ds <-> exists r, r ∈ db /\ Sqlite.Deployment r = d.
Proof.
  intros H Hc.
  apply Sqlite_deployments_inv in H as [_ [[msg ->]|(ds' & [Hn Hd] & ->)]];
    [discriminate Hc|].
  injection Hc as <-. split; [done|]. intros d.
  rewrite Hd, list_elem_of_fmap. naive_solver.
Qed.

Lemma Mongo_deployments_elem (db : list Mongo.Location)
    (resp : Response Mongo.Location) (db' : list Mongo.Location) (ds : list string) :
  Mongo.handleGetDeployments db resp db' -> content resp = StringsJSON ds ->
  NoDup ds /\ forall d, d ∈ ds <-> exists r, r ∈ db /\ Mongo.Deployment r = d.
Proof.
  intros H Hc.
  apply Mongo_deployments_inv in H as [_ [[msg ->]|(ds' & [Hn Hd] & ->)]];
    [discriminate Hc|].
  injection Hc as <-. split; [done|]. intros d.
  rewrite Hd, list_elem_of_fmap. naive_solver.
Qed.

Lemma Sqlite_select_deployment (db : list Sqlite.Location) (deployment : string)
    (r : Sqlite.Location) :
  r ∈ Sqlite.select [(Sqlite.deployment_col, deployment)] db <->
  r ∈ db /\ Sqlite.Deployment r = deployment.
Proof.
  unfold Sqlite.select, Sqlite.satisfies.
  rewrite list_elem_of_filter, Forall_cons, Forall_nil. cbn. naive_solver.
Qed.

Lemma Mongo_find_deployment (db : list Mongo.Location) (deployment : string)
    (r : Mongo.Location) :
  r ∈ Mongo.find {["deployment" := deployment]} db <->
  r ∈ db /\ Mongo.Deployment r = deployment.
Proof.
  unfold Mongo.find. rewrite list_elem_of_filter, Mongo_matches_deployment. tauto.
Qed.

Lemma Sqlite_platforms_elem (db : list Sqlite.Location) (deployment : string)
    (resp : Response Sqlite.Location) (db' : list Sqlite.Location) (ps : list string) :
  Sqlite.handleGetPlatforms db deployment resp db' -> content resp = StringsJSON ps ->
  NoDup ps /\
  forall p, p ∈ ps <->
    exists r, r ∈ db /\ Sqlite.Deployment r = deployment /\ Sqlite.Platform r = p.
Proof.
  intros H Hc.
  apply Sqlite_platforms_inv in H as [_ [[msg ->]|(ps' & [Hn Hd] & ->)]];
    [discriminate Hc|].
  injection Hc as <-. split; [done|]. intros p.
  rewrite Hd, list_elem_of_fmap. setoid_rewrite Sqlite_select_deployment.
  naive_solver.
Qed.

Lemma Mongo_platforms_elem (db : list Mongo.Location) (deployment : string)
    (resp : Response Mongo.Location) (db' : list Mongo.Location) (ps : list string) :
  Mongo.handleGetPlatforms db deployment resp db' -> content resp = StringsJSON ps ->
  NoDup ps /\
  forall p, p ∈ ps <->
    exists r, r ∈ db /\ Mongo.Deployment r = deployment /\ Mongo.Platform r = p.
Proof.
  intros H Hc.
  apply Mongo_platforms_inv in H as [_ [[msg ->]|(ps' & [Hn Hd] & ->)]];
    [discriminate Hc|].
  injection Hc as <-. split; [done|]. intros p.
  rewrite Hd, list_elem_of_fmap. setoid_rewrite Mongo_find_deployment.
  naive_solver.
Qed.



(** The two listings agree: in both variants a deployment is listed among
    the deployments exactly when the listing of its platforms is not
    empty. *)
Theorem listed_deployments_have_platforms (sdb : list Sqlite.Location)
    (mdb : list Mongo.Location) (deployment : string) :
  (forall r1 db1 ds r2 db2 ps,
     Sqlite.handleGetDeployments sdb r1 db1 -> content r1 = StringsJSON ds ->
     Sqlite.handleGetPlatforms sdb deployment r2 db2 -> content r2 = StringsJSON ps ->
     deployment ∈ ds <-> ps <> []) /\
  (forall r1 db1 ds r2 db2 ps,
     Mongo.handleGetDeployments mdb r1 db1 -> content r1 = StringsJSON ds ->
     Mongo.handleGetPlatforms mdb deployment r2 db2 -> content r2 = StringsJSON ps ->
     deployment ∈ ds <-> ps <> []).
Proof.
  split; intros r1 db1 ds r2 db2 ps H1 C1 H2 C2.
  - destruct (Sqlite_deployments_elem sdb r1 db1 ds H1 C1) as [_ Hd].
    destruct (Sqlite_platforms_elem sdb deployment r2 db2 ps H2 C2) as [_ Hp].
    rewrite Hd. split.
    + intros (r & Hr & Hdep) ->.
      apply (not_elem_of_nil (Sqlite.Platform r)), Hp. eauto.
    + intros Hne. destruct ps as [|p ps]; [done|].
      destruct (proj1 (Hp p)) as (r & Hr & Hdep & _); [left|eauto].
  - destruct (Mongo_deployments_elem mdb r1 db1 ds H1 C1) as [_ Hd].
    destruct (Mongo_platforms_elem mdb deployment r2 db2 ps H2 C2) as [_ Hp].
    rewrite Hd. split.
    + intros (r & Hr & Hdep) ->.
      apply (not_elem_of_nil (Mongo.Platform r)), Hp. eauto.
    + intros Hne. destruct ps as [|p ps]; [done|].
      destruct (proj1 (Hp p)) as (r & Hr & Hdep & _); [left|eauto].
Qed.

Lemma listed_deployments_have_platforms_witness :
  ("D2" ∈ ["D1"; "D2"] <-> ["P9"] <> []) /\
  Sqlite.run_handleGetDeployments sqlite_db = response StatusOK (StringsJSON ["D1"; "D2"]) /\
  Sqlite.run_handleGetPlatforms sqlite_db "D2" = response StatusOK (StringsJSON ["P9"]).
Proof.
  split; [|split; reflexivity].
  exact (proj1 (listed_deployments_have_platforms sqlite_db mongo_db "D2")
           (Sqlite.run_handleGetDeployments sqlite_db) sqlite_db ["D1"; "D2"]
           (Sqlite.run_handleGetPlatforms sqlite_db "D2") sqlite_db ["P9"]
           (Sqlite_run_handleGetDeployments_behaviour sqlite_db) eq_refl
           (Sqlite_run_handleGetPlatforms_behaviour sqlite_db "D2") eq_refl).
Defined.



(** ** A stored submission is found by every read that concerns it *)





Lemma Mongo_matches_own_filter (l : Mongo.Location) :
  Mongo.matches (Mongo.locations_filter (Mongo.Deployment l) (Mongo.Platform l)) l.
Proof. apply Mongo_matches_locations_filter. done. Qed.

(** Document-store variant: after a submission answered with status 200
    at the time [now], the stored record (the bound one under the creation
    time of the server) is in every listing asked for its own deployment
    and platform, its deployment is in every listing of the deployments and
    its platform in every listing of the platforms of its deployment. *)
Theorem Mongo_submission_is_found (UnmarshalTime : string -> option Z)
    (db : list Mongo.Location) (body : option json) (now : Z)
    (post : Response Mongo.Location) (db' : list Mongo.Location) :
  Mongo.handlePostLocation UnmarshalTime db body now post db' ->
  code post = StatusOK ->
  exists submitted,
    Mongo.ShouldBindJSON UnmarshalTime body = Ok submitted /\
    (forall r db'' ls,
       Mongo.handleGetLocations db' (Mongo.Deployment submitted)
         (Mongo.Platform submitted) r db'' ->
       content r = LocationsJSON ls ->
       Mongo.set_CreatedAt (Mongo.bson_time now) submitted ∈ ls) /\
    (forall r db'' ds,
       Mongo.handleGetDeployments db' r db'' ->
       content r = StringsJSON ds -> Mongo.Deployment submitted ∈ ds) /\
    (forall r db'' ps,
       Mongo.handleGetPlatforms db' (Mongo.Deployment submitted) r db'' ->
       content r = StringsJSON ps -> Mongo.Platform submitted ∈ ps).
Proof.
  intros Hpost Hc.
  apply Mongo_post_inv in Hpost as (submitted & Hb & _ & ->); [|done].
  set (stored := Mongo.set_CreatedAt (Mongo.bson_time now) submitted).
  assert (Hin : stored ∈ db ++ [stored]) by set_solver.
  exists submitted. split; [done|]. split; [|split].
  - intros r db'' ls H Hl.
    apply Mongo_locations_inv in H as [_ [[msg ->]|(ls' & [Hp _] & ->)]];
      [discriminate Hl|].
    injection Hl as <-. rewrite Hp. unfold Mongo.find. apply list_elem_of_filter.
    split; [apply (Mongo_matches_own_filter stored)|done].
  - intros r db'' ds H Hd.
    destruct (Mongo_deployments_elem _ r db'' ds H Hd) as [_ He].
    apply He. exists stored. done.
  - intros r db'' ps H Hp.
    destruct (Mongo_platforms_elem _ _ r db'' ps H Hp) as [_ He].
    apply He. exists stored. done.
Qed.

Lemma Mongo_submission_is_found_witness :
  Mongo.handlePostLocation sample_UnmarshalTime [] sample_body sample_now
    (response StatusOK SuccessJSON) mongo_once /\
  exists submitted,
    Mongo.ShouldBindJSON sample_UnmarshalTime sample_body = Ok submitted /\
    Mongo.Deployment submitted ∈ ["D1"] /\
    Mongo.run_handleGetDeployments mongo_once = response StatusOK (StringsJSON ["D1"]).
Proof.
  split; [apply mongo_sample_posts|].
  destruct (Mongo_submission_is_found sample_UnmarshalTime [] sample_body sample_now
              _ _ (proj1 (proj2 mongo_sample_posts)) eq_refl)
    as (submitted & Hb & _ & Hd & _).
  exists submitted. split; [exact Hb|]. split; [|reflexivity].
  exact (Hd (Mongo.run_handleGetDeployments mongo_once) mongo_once ["D1"]
           (Mongo_run_handleGetDeployments_behaviour mongo_once) eq_refl).
Defined.

(** ** A listing holds stored records only *)

(** A listing never holds a record that is not stored, nor a stored record
    more often than it is stored: in the relational variant it is the table
    with some rows left out, in the order of the table; in the
    document-store variant it is a rearrangement of the collection with
    some documents left out.  Without filters nothing is left out. *)
Theorem listings_hold_stored_records (sdb : list Sqlite.Location)
    (mdb : list Mongo.Location) (deployment platform : string) :
  (forall resp db' ls,
     Sqlite.handleGetLocations sdb deployment platform resp db' ->
     content resp = LocationsJSON ls ->
     ls `sublist_of` sdb /\ (deployment = "" -> ls = sdb)) /\
  (forall resp db' ls,
     Mongo.handleGetLocations mdb deployment platform resp db' ->
     content resp = LocationsJSON ls ->
     ls ⊆+ mdb /\ (deployment = "" -> platform = "" -> ls ≡ₚ mdb)).
Proof.
  split; intros resp db' ls H Hl.
  - apply Sqlite_locations_inv in H as [_ [[msg ->]| ->]]; [discriminate Hl|].
    injection Hl as <-. split; [apply sublist_filter|].
    intros ->. apply Sqlite_select_all.
  - apply Mongo_locations_inv in H as [_ [[msg ->]|(ls' & [Hp _] & ->)]];
      [discriminate Hl|].
    injection Hl as <-. split.
    + rewrite Hp. apply sublist_submseteq, sublist_filter.
    + intros -> ->. rewrite Hp.
      change (Mongo.locations_filter "" "") with (∅ : gmap string string).
      by rewrite Mongo_find_all.
Qed.

Lemma listings_hold_stored_records_witness :
  [sqlite_P1_late; sqlite_P1_early] `sublist_of` sqlite_db /\
  Sqlite.run_handleGetLocations sqlite_db "D1" "P1" =
    response StatusOK (LocationsJSON [sqlite_P1_late; sqlite_P1_early]).
Proof.
  split; [|reflexivity].
  exact (proj1 (proj1 (listings_hold_stored_records sqlite_db mongo_db "D1" "P1")
                  (Sqlite.run_handleGetLocations sqlite_db "D1" "P1") sqlite_db
                  [sqlite_P1_late; sqlite_P1_early]
                  (Sqlite_run_handleGetLocations_behaviour sqlite_db "D1" "P1")
                  eq_refl)).
Defined.

(** ** The paths and waypoints of an export *)








(** ** An export of plain names and timestamps is well-formed *)

Module ExportText.
Import Sqlite.






















End ExportText.




(** ** The servers *)


Lemma Mongo_route_post (req : request) (now now' : Z) (body : option json) :
  Mongo_route req now = Some (MongoPostLocation body now') ->
  req_method req = POST /\ req_path req = ["api"; "data"] /\
  body = req_body req /\ now' = now.
Proof.
  unfold Mongo_route.
  destruct (req_method req); destruct (req_path req) as [|a [|b [|d [|? ?]]]];
    repeat case_decide; intros Hroute; simplify_eq; naive_solver.
Qed.


Lemma Mongo_serve_changes (UnmarshalTime : string -> option Z)
    (db : list Mongo.Location) (mreq : Mongo_request)
    (resp : Response Mongo.Location) (db' : list Mongo.Location) :
  Mongo_serve UnmarshalTime db mreq resp db' -> db' <> db ->
  exists body now l,
    mreq = MongoPostLocation body now /\ resp = response StatusOK SuccessJSON /\
    Mongo.ShouldBindJSON UnmarshalTime body = Ok l /\
    db' = db ++ [Mongo.set_CreatedAt (Mongo.bson_time now) l].
Proof.
  intros H Hne. destruct (Mongo_read_only mreq) eqn:Hr.
  - by destruct (Mongo_read_answers UnmarshalTime db mreq resp db' Hr H) as [-> _].
  - destruct mreq as [body now| | |]; try discriminate Hr. cbn in H.
    inversion H; subst; try done. eauto 10.
Qed.



(** The server of the document-store variant: no answer carries a header
    of a middleware, an OPTIONS request has no route and is answered with
    status 404, and the store changes only when a POST to [/api/data] whose
    body binds is answered with status 200, by the bound record under the
    creation time of the server.  No request has a route in both variants. *)
Theorem Mongo_server_is_safe (UnmarshalTime : string -> option Z)
    (db : list Mongo.Location) (req : request) (now : Z)
    (answer : http_response Mongo.Location) (db' : list Mongo.Location) :
  Mongo_server UnmarshalTime db req now answer db' ->
  middleware_headers answer = [] /\
  (req_method req = OPTIONS -> outcome answer = PageNotFound /\ db' = db) /\
  (db' <> db ->
   req_method req = POST /\ req_path req = ["api"; "data"] /\
   outcome answer = Served (response StatusOK SuccessJSON) /\
   exists l, Mongo.ShouldBindJSON UnmarshalTime (req_body req) = Ok l /\
             db' = db ++ [Mongo.set_CreatedAt (Mongo.bson_time now) l]) /\
  (is_Some (Mongo_route req now) -> Sqlite_route req = None).
Proof.
  intros H.
  assert (Hroutes : is_Some (Mongo_route req now) -> Sqlite_route req = None).
  { unfold Mongo_route, Sqlite_route.
    destruct (req_method req); destruct (req_path req) as [|a [|b [|d [|? ?]]]];
      repeat case_decide; intros [? ?]; simplify_eq; naive_solver. }
  inversion H as [mreq resp db1 Hp Hr Hs|Hp Hr]; subst; cbn.
  - split; [done|]. split; [|split; [|done]].
    + intros Hm. unfold Mongo_route in Hr. rewrite Hm in Hr. discriminate Hr.
    + intros Hne.
      destruct (Mongo_serve_changes UnmarshalTime db mreq resp db' Hs Hne)
        as (body & now' & l & -> & -> & Hb & ->).
      apply Mongo_route_post in Hr as (Hpost & Hpath & -> & ->). eauto 10.
  - split; [done|]. split; [done|]. split; done.
Qed.

Lemma Mongo_server_is_safe_witness :
  Mongo_server sample_UnmarshalTime [] mongo_post_request sample_now
    (mkHttp [] (Served (response StatusOK SuccessJSON))) mongo_once /\
  (mongo_once <> [] ->
   req_method mongo_post_request = POST /\ req_path mongo_post_request = ["api"; "data"] /\
   outcome (mkHttp (L := Mongo.Location) [] (Served (response StatusOK SuccessJSON))) =
     Served (response StatusOK SuccessJSON) /\
   exists l, Mongo.ShouldBindJSON sample_UnmarshalTime (req_body mongo_post_request) = Ok l /\
             mongo_once = [] ++ [Mongo.set_CreatedAt (Mongo.bson_time sample_now) l]).
Proof.
  assert (H : Mongo_server sample_UnmarshalTime [] mongo_post_request sample_now
                (mkHttp [] (Served (response StatusOK SuccessJSON))) mongo_once).
  { eapply mongo_routed; [repeat constructor; done|reflexivity|].
    apply mongo_sample_posts. }
  split; [exact H|].
  exact (proj1 (proj2 (proj2
           (Mongo_server_is_safe sample_UnmarshalTime [] mongo_post_request sample_now
              _ _ H)))).
Defined.
